(** * pycaustic: the instruction evaluator of [pycaustic/scraper.py]

    A shallow embedding of [Request], [Scraper._scrape_find],
    [Scraper._scrape_load], [Scraper._scrape_dict] and [Scraper.scrape],
    together with the collaborators the scraper imports
    ([pycaustic.templates.Substitution], [pycaustic.patterns.Regex],
    [pycaustic.responses], [pycaustic.errors] and the [requests] session).

    Python values are an inductive type, dicts are finite maps, an
    exception is the [Raise] branch of [outcome], and the two effects of
    the scraper (the in-place rewriting of the instruction dict and the
    calls made on the session) are returned explicitly next to the
    outcome. *)

From Stdlib Require Import ZArith Ascii String.
From stdpp Require Import gmap strings list fin_maps pretty.
From Equations Require Import Equations.

Set Warnings "-register-all".
#[local] Open Scope string_scope.

(** ** Python values *)

(** The values an instruction document is built from (what [json.load]
    produces; floats are left out, nothing in the scraper inspects them). *)
Inductive value : Type :=
| VNone
| VBool (b : bool)
| VInt (z : Z)
| VStr (s : string)
| VList (l : list value)
| VDict (d : gmap string value).

(** [x == True] in Python: [True] itself and the integer [1]. *)
Definition eq_True (v : value) : bool :=
  match v with
  | VBool true => true
  | VInt 1 => true
  | _ => false
  end.

(** [v == s] for a string literal [s]. *)
Definition eq_str (v : value) (s : string) : bool :=
  match v with
  | VStr s' => bool_decide (s' = s)
  | _ => false
  end.

(** [d.get(k, default)] *)
Definition get (d : gmap string value) (k : string) (default : value) : value :=
  match d !! k with
  | Some v => v
  | None => default
  end.

(** [k in d] *)
Definition contains (d : gmap string value) (k : string) : bool :=
  bool_decide (is_Some (d !! k)).

(** [d.update(e)]: every key of [e] is written into [d]. *)
Definition update (d e : gmap string value) : gmap string value := e ∪ d.

(** ** Exceptions and outcomes *)

(** The messages [InvalidInstruction] is raised with in [scraper.py]. *)
Inductive invalid : Type :=
| MissingRegex                        (* "Missing regex" *)
| MissingURL                          (* "Missing URL" *)
| IllegalHTTPMethod (method : value)  (* "Illegal HTTP method: %s" % method *)
| ExtendsShape                        (* "`extends` must be a dict or str" *)
| NoFindOrLoad                        (* "Could not find `find` or `load` key." *)
| NotAnInstruction (instruction : value).

Inductive exn : Type :=
| InvalidInstruction (what : invalid)
| TemplateError
| TemplateResultError
| NotImplementedError (msg : string)
| TypeError (msg : string)
| AttributeError (msg : string)
| RequestException (msg : string)
| OtherException (msg : string).

Inductive outcome (A : Type) : Type :=
| Return (a : A)
| Raise (e : exn).
Arguments Return {A} a.
Arguments Raise {A} e.

#[global] Instance outcome_ret : MRet outcome := fun A a => Return a.
#[global] Instance outcome_bind : MBind outcome := fun A B k m =>
  match m with
  | Return a => k a
  | Raise e => Raise e
  end.

(** ** pycaustic.templates *)

Module Templates.

(** The value a substitution resolves to: [None], a string, or a dict of
    strings. *)
Inductive resolved : Type :=
| RNone
| RStr (s : string)
| RDict (d : gmap string string).

(** Python truthiness of a resolved value. *)
Definition truthy (r : resolved) : bool :=
  match r with
  | RNone => false
  | RStr s => negb (bool_decide (s = ""))
  | RDict d => negb (bool_decide (d = ∅))
  end.

(** *** URL encoding *)

(** The characters [urllib.quote] never escapes: letters, digits and
    [_.-]. *)
Definition always_safe (c : ascii) : bool :=
  let n := N_of_ascii c in
  ((65 <=? n) && (n <=? 90) || (97 <=? n) && (n <=? 122)
   || (48 <=? n) && (n <=? 57)
   || (n =? 95) || (n =? 46) || (n =? 45))%N.

Definition hex_digit (n : N) : ascii :=
  (if n <? 10 then ascii_of_N (48 + n) else ascii_of_N (55 + n))%N.

(** ["%%%02X" % ord(c)] *)
Definition percent (c : ascii) : string :=
  let n := N_of_ascii c in
  String "%" (String (hex_digit (n / 16)) (String (hex_digit (n mod 16)) "")).

Definition quote_char (c : ascii) : string :=
  if always_safe c then String c ""
  else if Ascii.eqb c " " then "+"
  else percent c.

(** Modelled from the spec: [pycaustic/templates.py] is not among the
    sources. "Double-brace substitution percent-encodes the substituted
    value (space -> [+])": the encoding is [urllib.quote_plus], character
    by character. *)
Fixpoint quote_plus (s : string) : string :=
  match s with
  | EmptyString => ""
  | String c r => quote_char c +:+ quote_plus r
  end.

(** *** Scanning a string template *)

Inductive piece : Type :=
| PChar (c : ascii)         (* literal text *)
| PRaw (name : string)      (* {{{name}}} *)
| PEnc (name : string).     (* {{name}} *)

Inductive mode : Type :=
| Text
| InDouble (acc : string)
| InTriple (acc : string).

Definition literal (s : string) : list piece :=
  PChar <$> list_ascii_of_string s.

Definition snoc (acc : string) (c : ascii) : string := acc +:+ String c "".

(** Modelled from the spec: [pycaustic/templates.py] is not among the
    sources. "String templates: scan for [{{{name}}}] (triple-brace, raw)
    and [{{name}}] (double-brace, encoded) placeholders"; "a triple-brace
    match takes precedence and its inner name is never double-substituted
    as a double-brace placeholder". A placeholder that is never closed is
    kept as literal text. *)
Fixpoint scan (m : mode) (s : string) : list piece :=
  match m with
  | Text =>
      match s with
      | String "{" (String "{" (String "{" r)) => scan (InTriple "") r
      | String "{" (String "{" r) => scan (InDouble "") r
      | String c r => PChar c :: scan Text r
      | EmptyString => []
      end
  | InTriple acc =>
      match s with
      | String "}" (String "}" (String "}" r)) => PRaw acc :: scan Text r
      | String c r => scan (InTriple (snoc acc c)) r
      | EmptyString => literal ("{{{" +:+ acc)
      end
  | InDouble acc =>
      match s with
      | String "}" (String "}" r) => PEnc acc :: scan Text r
      | String c r => scan (InDouble (snoc acc c)) r
      | EmptyString => literal ("{{" +:+ acc)
      end
  end.

Definition names_of (p : piece) : list string :=
  match p with
  | PChar _ => []
  | PRaw n | PEnc n => [n]
  end.

(** De-duplication that keeps the order of discovery. *)
Fixpoint dedup (l : list string) : list string :=
  match l with
  | [] => []
  | x :: r => x :: filter (fun y => y ≠ x) (dedup r)
  end.

Definition missing_of (tags : gmap string string) (ps : list piece) : list string :=
  dedup (filter (fun n => tags !! n = None) (ps ≫= names_of)).

Definition render_piece (tags : gmap string string) (p : piece) : string :=
  match p with
  | PChar c => String c ""
  | PRaw n => default "" (tags !! n)
  | PEnc n => quote_plus (default "" (tags !! n))
  end.

Definition render (tags : gmap string string) (ps : list piece) : string :=
  foldr (fun p acc => render_piece tags p +:+ acc) "" ps.

(** A [Substitution] object: the names it could not resolve and the value
    it resolved to. *)
Record Substitution : Type := mkSubstitution {
  missing_tags : list string;
  resolved_value : resolved
}.

Definition sub_string (s : string) (tags : gmap string string) : Substitution :=
  let ps := scan Text s in
  mkSubstitution (missing_of tags ps) (RStr (render tags ps)).

(** A scalar template as a string template: numbers and booleans are
    "coerced to their canonical string form". *)
Definition scalar_template (v : value) : option string :=
  match v with
  | VStr s => Some s
  | VInt z => Some (pretty z)
  | VBool true => Some "True"
  | VBool false => Some "False"
  | _ => None
  end.

(** One entry of a mapping template: key and value are both resolved. *)
Definition sub_entry (tags : gmap string string) (kv : string * value)
  : outcome (list string * (string * string)) :=
  match scalar_template kv.2 with
  | Some t =>
      let ks := scan Text kv.1 in
      let vs := scan Text t in
      Return ((missing_of tags ks ++ missing_of tags vs)%list,
              (render tags ks, render tags vs))
  | None => Raise TemplateError
  end.

Fixpoint sub_entries (tags : gmap string string) (kvs : list (string * value))
  : outcome (list string * list (string * string)) :=
  match kvs with
  | [] => Return ([], [])
  | kv :: r =>
      e ← sub_entry tags kv;
      es ← sub_entries tags r;
      Return ((e.1 ++ es.1)%list, e.2 :: es.2)
  end.

(** Modelled from the spec: [pycaustic/templates.py] is not among the
    sources. [Substitution(template, tags)] per section 4.1 of the
    specification and [tests/test_templates.py]: strings are scanned,
    numbers and booleans are never missing, [None] resolves to [None],
    a mapping resolves its keys and its values and reports the union of
    what they miss, any other shape raises [TemplateError]. *)
Definition new (template : value) (tags : gmap string string)
  : outcome Substitution :=
  match template with
  | VNone => Return (mkSubstitution [] RNone)
  | VStr s => Return (sub_string s tags)
  | VInt _ | VBool _ =>
      Return (mkSubstitution [] (RStr (default "" (scalar_template template))))
  | VDict d =>
      es ← sub_entries tags (map_to_list d);
      Return (mkSubstitution (dedup es.1) (RDict (list_to_map es.2)))
  | VList _ => Raise TemplateError
  end.

(** The [result] property: reading the value of an incomplete template
    raises [TemplateResultError]. *)
Definition result (sub : Substitution) : outcome resolved :=
  match missing_tags sub with
  | [] => Return (resolved_value sub)
  | _ :: _ => Raise TemplateResultError
  end.

(** [Substitution.add_missing]: the union of what its arguments miss. *)
Definition add_missing (subs : list Substitution) : list string :=
  dedup (subs ≫= missing_tags).

End Templates.

(** ** Sizes of instruction documents

    The [extends] loop of [_scrape_dict] re-enters on a dict built from a
    strictly smaller part of the document; [dict_size] is its measure. *)

Fixpoint vsize (v : value) : nat :=
  match v with
  | VDict d => S (map_fold (fun _ x acc => vsize x + acc) 0 d)
  | VList l => S (foldr (fun x acc => vsize x + acc) 0 l)
  | _ => 1
  end.

Definition dict_size (d : gmap string value) : nat :=
  map_fold (fun _ x acc => vsize x + acc) 0 d.

(** ** pycaustic.responses *)

Import Templates.

Inductive request_id : Type :=
| GivenId (id : string)   (* the caller's [id=...] *)
| Uuid4.                  (* [str(uuid.uuid4())], a fresh identifier *)

Inductive request_uri : Type :=
| GivenUri (uri : string) (* the caller's [uri=...] *)
| Getcwd.                 (* [os.getcwd()] *)

(** [Request]: [instruction] is the [copy.deepcopy] taken when the request
    is built, so it keeps the document as it was at that moment. *)
Record Request : Type := mkRequest {
  instruction : value;
  tags : gmap string string;
  input : string;
  force : value;
  id : request_id;
  uri : request_uri
}.

Inductive Response : Type :=
| MissingTags (req : Request) (names : list string)
| Wait (req : Request) (name : resolved) (description : value)
| DoneLoad (req : Request) (name : resolved) (description : value)
           (result : Result)
| DoneFind (req : Request) (name : resolved) (description : value)
           (results : list Result)
| Reference (req : Request) (resps : list Response)
| Failed (req : Request) (reason : string)
with Result : Type :=
| mkResult (value : string) (children : option (list Response)).

(** ** The collaborators of the scraper *)

(** One call on the [requests] session: [requester(url, cookies=...,
    headers=..., data=...)], [data] being passed only when the method is
    [post] or [posts] is truthy. *)
Record fetch_call : Type := mkCall {
  call_method : string;
  call_url : resolved;
  call_data : option resolved;
  call_cookies : resolved;
  call_headers : resolved
}.

Record http_response : Type := mkHttp {
  status_code : Z;
  text : string
}.

(** What a handler leaves behind: its outcome, the instruction document as
    the call left it (dicts are rewritten in place), and the calls it made
    on the session, in order. *)
Record ran (D : Type) : Type := Ran {
  outcome_of : outcome Response;
  document : D;
  calls : list fetch_call
}.
Arguments Ran {D} _ _ _.
Arguments outcome_of {D} _.
Arguments document {D} _.
Arguments calls {D} _.

(** [str(v)] of a string value; the other shapes never reach a use. *)
Definition str_val (v : value) : string :=
  match v with
  | VStr s => s
  | _ => ""
  end.

Definition is_none (v : value) : bool :=
  match v with
  | VNone => true
  | _ => false
  end.

(** The names the [requests] package exports that matter here: the
    exception classes live in [requests.exceptions]; the package has no
    attribute [exception]. *)
Definition requests_attributes : list string :=
  ["Session"; "exceptions"; "get"; "head"; "post"; "request"].

(** [requests.<name>]: an [AttributeError] when the package has no such
    attribute. *)
Definition requests_getattr (name : string) : outcome unit :=
  if bool_decide (name ∈ requests_attributes) then Return ()
  else Raise (AttributeError name).

(** [Scraper._load_uri]: "Obtain a remote instruction." The body raises;
    no instruction ever comes back, hence the empty result type. *)
Definition _load_uri {U : Type} (string_ : U) : outcome Empty_set :=
  Raise (NotImplementedError
           "Remotely constructed instructions not yet supported").

(** [Scraper._run_children]: "Run a series of children with new input."
    The body is [pass]: the method returns [None]. *)
Definition _run_children (input : string) (then_ : value)
  : option (list Response) := None.

Definition inspect {A : Type} (a : A) : {b : A | a = b} := exist _ a eq_refl.

(** The [while 'extends' in instruction] loop of [_scrape_dict]: the
    outcome of the loop and the instruction dict as the loop left it. *)
Equations? extends_loop (instruction : gmap string value)
  : outcome unit * gmap string value
  by wf (dict_size instruction) lt :=
extends_loop instruction with inspect (instruction !! "extends") := {
  | exist _ None _ => (Return (), instruction)
  | exist _ (Some (VStr uri)) _ =>
      (* instruction.update(self._load_uri(extends)): the call raises *)
      (loaded ← _load_uri uri; Empty_set_rect _ loaded,
       delete "extends" instruction)
  | exist _ (Some (VDict extends)) Hextends =>
      extends_loop (update (delete "extends" instruction) extends)
  | exist _ (Some _) _ =>
      (Raise (InvalidInstruction ExtendsShape), delete "extends" instruction) }.
Proof.
  (* The merged dict is smaller than the dict that held [extends]. *)
  assert (Hinsert : forall k v (d : gmap string value),
             d !! k = None -> dict_size (<[k:=v]> d) = vsize v + dict_size d).
  { intros k v d Hk. unfold dict_size.
    rewrite map_fold_insert_L; auto. intros; lia. }
  assert (Hdelete : forall k v (d : gmap string value),
             d !! k = Some v -> dict_size d = vsize v + dict_size (delete k d)).
  { intros k v d Hk. rewrite <- (insert_delete_id d k v) at 1 by done.
    apply Hinsert, lookup_delete_eq. }
  assert (Hunion : forall e d : gmap string value,
             dict_size (e ∪ d) <= dict_size e + dict_size d).
  { intros e d. induction e as [|k v e Hk IH] using map_ind.
    - rewrite (left_id_L ∅ (∪)). unfold dict_size at 2.
      rewrite map_fold_empty. lia.
    - rewrite <- insert_union_l, (Hinsert k v e Hk).
      destruct (d !! k) as [w|] eqn:Hd.
      + assert (Hu : (e ∪ d) !! k = Some w).
        { apply lookup_union_Some_raw. right. done. }
        rewrite (Hdelete _ _ _ Hu) in IH.
        rewrite <- insert_delete_eq.
        rewrite Hinsert by apply lookup_delete_eq. lia.
      + rewrite Hinsert; [lia|]. apply lookup_union_None. done. }
  unfold update.
  match goal with
  | H : ?i !! "extends" = Some (VDict ?e) |- _ =>
      pose proof (Hunion e (delete "extends" i)) as Hle;
      rewrite (Hdelete _ _ _ H); simpl; fold (dict_size e)
  end.
  lia.
Qed.

(** ** pycaustic.scraper *)

Section Scraper.

(** [Regex(find, ignore_case, multiline, dot_matches_all, replace)
    .substitutions(input)]: [pycaustic/patterns.py] is not among the
    sources, so the engine is a parameter. These six values are all the
    scraper hands to it. *)
Variable Regex_substitutions :
  resolved -> value -> value -> value -> resolved -> string ->
  outcome (list string).

(** The [requests] session: what a call answers, or the exception it
    raises. *)
Variable session : fetch_call -> outcome http_response.

(** [str(d)] of a resolved dict, for the text of a message. *)
Variable repr_dict : gmap string string -> string.

Definition str_resolved (r : resolved) : string :=
  match r with
  | RNone => "None"
  | RStr s => s
  | RDict d => repr_dict d
  end.

(** [Scraper._scrape_find] *)
Definition _scrape_find (req : Request) (instruction : gmap string value)
    (description then_ : value) : outcome Response :=
  if negb (contains instruction "find")
  then Raise (InvalidInstruction MissingRegex)
  else
    findSub ← new (get instruction "find" VNone) (tags req);
    replaceSub ← new (get instruction "replace" (VStr "$0")) (tags req);
    nameSub ← new (get instruction "name" VNone) (tags req);
    let ignore_case := get instruction "case_insensitive" (VBool false) in
    let multiline := get instruction "multiline" (VBool false) in
    let dot_matches_all := get instruction "dot_matches_all" (VBool true) in
    (* Default to full range *)
    let min_match := get instruction "min_match" (VInt 0) in
    let max_match := get instruction "max_match" (VInt (-1)) in
    let match_ := get instruction "match" VNone in
    (* Use single match if it was defined *)
    let min_match := if is_none match_ then min_match else match_ in
    let max_match := if is_none match_ then max_match else match_ in
    match add_missing [findSub; replaceSub; nameSub] with
    | (_ :: _) as missing => Return (MissingTags req missing)
    | [] =>
        (* Default to regex as string *)
        nameR ← result nameSub;
        findR ← result findSub;
        let name := if truthy nameR then nameR else findR in
        replace ← result replaceSub;
        substitutions ←
          Regex_substitutions findR ignore_case multiline dot_matches_all
                              replace (input req);
        let results :=
          (fun substitution =>
             mkResult substitution (_run_children substitution then_))
            <$> substitutions in
        match results with
        | _ :: _ => Return (DoneFind req name description results)
        | [] => Return (Failed req "No matches")
        end
    end.

(** The [except requests.exception.RequestException as e] clause: the
    class is looked up when an exception reaches the clause. *)
Definition except_RequestException (req : Request) (e : exn)
  : outcome Response :=
  _ ← requests_getattr "exception";
  match e with
  | RequestException msg => Return (Failed req msg)
  | _ => Raise e
  end.

(** [Scraper._scrape_load]: the outcome and the calls made on the session. *)
Definition _scrape_load (req : Request) (instruction : gmap string value)
    (force : value) (description then_ : value)
  : outcome Response * list fetch_call :=
  if negb (contains instruction "url")
  then (Raise (InvalidInstruction MissingURL), [])
  else
    let method := get instruction "method" (VStr "get") in
    if negb (eq_str method "head" || eq_str method "get" || eq_str method "post")
    then (Raise (InvalidInstruction (IllegalHTTPMethod method)), [])
    else
      match
        urlSub ← new (get instruction "url" VNone) (tags req);
        nameSub ← new (get instruction "name" VNone) (tags req);
        postsSub ← new (get instruction "posts" VNone) (tags req);
        cookiesSub ← new (get instruction "cookies" (VDict ∅)) (tags req);
        headersSub ← new (get instruction "headers" (VDict ∅)) (tags req);
        Return (urlSub, nameSub, postsSub, cookiesSub, headersSub)
      with
      | Raise e => (Raise e, [])
      | Return (urlSub, nameSub, postsSub, cookiesSub, headersSub) =>
          (* Extract our missing tags, if any *)
          match add_missing [urlSub; nameSub; postsSub; cookiesSub] with
          | (_ :: _) as missing => (Return (MissingTags req missing), [])
          | [] =>
              match
                url ← result urlSub;
                nameR ← result nameSub;
                Return (url, if truthy nameR then nameR else url)
              with
              | Raise e => (Raise e, [])
              | Return (url, name) =>
                  if negb (eq_True (get instruction "force" VNone))
                  then (Return (Wait req name description), [])
                  else
                    match
                      posts ← result postsSub;
                      cookies ← result cookiesSub;
                      headers ← result headersSub;
                      Return (posts, cookies, headers)
                    with
                    | Raise e => (Raise e, [])
                    | Return (posts, cookies, headers) =>
                        let data :=
                          if eq_str method "post" || truthy posts
                          then Some posts else None in
                        let call :=
                          mkCall (str_val method) url data cookies headers in
                        (match session call with
                         | Return resp =>
                             if (status_code resp =? 200)%Z
                             then
                               let children :=
                                 _run_children (text resp) then_ in
                               Return (DoneLoad req name description
                                         (mkResult (text resp) children))
                             else
                               Return (Failed req
                                         ("Status code "
                                          +:+ pretty (status_code resp)
                                          +:+ " from " +:+ str_resolved url))
                         | Raise e => except_RequestException req e
                         end, [call])
                    end
              end
          end
      end.

(** [Scraper._scrape_dict]. The call on the [load] branch passes
    [(req, instruction, description, then)] to [_scrape_load], which takes
    [(req, instruction, force, description, then)]: Python raises
    [TypeError] before the body of [_scrape_load] runs. *)
Definition _scrape_dict (req : Request) (instruction : gmap string value)
  : ran (gmap string value) :=
  let then_ := get instruction "then" (VList []) in
  let instruction := delete "then" instruction in
  let description := get instruction "description" VNone in
  let instruction := delete "description" instruction in
  (* Extend our instruction dict, overwriting keys *)
  let '(extended, instruction) := extends_loop instruction in
  match extended with
  | Raise e => Ran (Raise e) instruction []
  | Return _ =>
      if contains instruction "find"
      then Ran (_scrape_find req instruction description then_) instruction []
      else if contains instruction "load"
      then Ran (Raise (TypeError
                         "_scrape_load() takes exactly 6 arguments (5 given)"))
               instruction []
      else Ran (Raise (InvalidInstruction NoFindOrLoad)) instruction []
  end.

Definition request_id_of (id : option string) : request_id :=
  from_option GivenId Uuid4 id.

Definition request_uri_of (uri : option string) : request_uri :=
  from_option GivenUri Getcwd uri.

(** [Scraper.scrape]; [id] and [uri] are the keyword arguments, popped
    before the elements of a list are scraped. The [Substitution] modelled
    above has the attributes the tests name ([missing_tags], [result]); the
    [missingTags] read on the string branch is none of them. The elements
    of a list are read here as dicts of their own; [scrape_shared] below
    follows a list whose positions share a dict object. *)
Fixpoint scrape (instruction : value) (tags : gmap string string)
    (input : string) (force : value) (id uri : option string)
  : ran value :=
  match instruction with
  | VStr s =>
      (* Have to track down the instruction. *)
      match new instruction tags with
      | Raise e => Ran (Raise e) instruction []
      | Return instructionSub =>
          match missing_tags instructionSub with
          | _ :: _ => Ran (Raise (AttributeError "missingTags")) instruction []
          | [] =>
              Ran (r ← result instructionSub;
                   loaded ← _load_uri r;
                   Empty_set_rect _ loaded)
                  instruction []
          end
      end
  | VList l =>
      let req := mkRequest instruction tags input force
                           (request_id_of id) (request_uri_of uri) in
      (* Handle each element of list separately within this context. *)
      let each :=
        fix each (l : list value)
          : outcome (list Response) * list value * list fetch_call :=
          match l with
          | [] => (Return [], [], [])
          | i :: rest =>
              let r := scrape i tags input (VBool false) None None in
              match outcome_of r with
              | Raise e => (Raise e, document r :: rest, calls r)
              | Return resp =>
                  let '(resps, rest', made) := each rest in
                  (resps ← resps; Return (resp :: resps),
                   document r :: rest', (calls r ++ made)%list)
              end
          end in
      let '(resps, l', made) := each l in
      Ran (resps ← resps; Return (Reference req resps)) (VList l') made
  | VDict d =>
      (* Dict instructions are ones we can actually handle *)
      let req := mkRequest instruction tags input force
                           (request_id_of id) (request_uri_of uri) in
      let r := _scrape_dict req d in
      Ran (outcome_of r) (VDict (document r)) (calls r)
  | _ =>
      Ran (Raise (InvalidInstruction (NotAnInstruction instruction)))
          instruction []
  end.

End Scraper.

(** ** Doubles for the collaborators

    Concrete engines and sessions, as the mocks of a test suite, on which
    the handlers are evaluated. *)

Definition is_digit (c : ascii) : bool :=
  let n := N_of_ascii c in ((48 <=? n) && (n <=? 57))%N.

Definition flush (cur : string) : list string :=
  if bool_decide (cur = "") then [] else [cur].

(** The maximal runs of decimal digits of a string, left to right. *)
Fixpoint digit_runs (cur : string) (s : string) : list string :=
  match s with
  | EmptyString => flush cur
  | String c r =>
      if is_digit c then digit_runs (snoc cur c) r
      else (flush cur ++ digit_runs "" r)%list
  end.

(** Modelled from the spec: [pycaustic/patterns.py] is not among the
    sources. The engine on the one pattern the specification exercises,
    [(\d+)] with replacement [$1]: one substitution per occurrence, that
    is per maximal run of digits, in order. Other patterns are outside
    this double. *)
Definition Regex_digits (find : resolved) (ignore_case multiline
    dot_matches_all : value) (replace : resolved) (input : string)
  : outcome (list string) :=
  match find, replace with
  | RStr "(\d+)", RStr "$1" => Return (digit_runs "" input)
  | _, _ => Raise (OtherException "pattern outside the double")
  end.

(** Modelled from the spec: the match-count window of section 4.2, which
    [pycaustic/patterns.py] would apply: occurrences [min_match] to
    [max_match], both counted from 0, [max_match = -1] meaning all of them
    from [min_match] onward. *)
Definition window (min_match max_match : Z) (occurrences : list string)
  : list string :=
  let from := drop (Z.to_nat min_match) occurrences in
  if (max_match =? -1)%Z then from
  else take (Z.to_nat (max_match - min_match + 1)) from.

(** A session whose every call answers [status] with [body]. *)
Definition session_answers (status : Z) (body : string)
  : fetch_call -> outcome http_response :=
  fun _ => Return (mkHttp status body).

(** A session whose every call fails in transport. *)
Definition session_fails (msg : string) : fetch_call -> outcome http_response :=
  fun _ => Raise (RequestException msg).

Definition repr_opaque (d : gmap string string) : string := "{...}".

Definition request_for (instruction : gmap string value)
    (tags : gmap string string) (input : string) (force : value) : Request :=
  mkRequest (VDict instruction) tags input force Uuid4 Getcwd.

(** ** Observers and inputs

    What the properties below read off a response, and the instructions,
    tags and calls they are stated on. *)


(** [Substitution(template, tags).result] *)
Definition read (template : value) (tags : gmap string string)
  : outcome resolved :=
  sub ← new template tags; result sub.

(** [Substitution(template, tags).missing_tags] *)
Definition missing (template : value) (tags : gmap string string)
  : outcome (list string) :=
  sub ← new template tags; Return (missing_tags sub).

(** The request a response carries. *)
Definition request_of (r : Response) : Request :=
  match r with
  | MissingTags req _ | Wait req _ _ | DoneLoad req _ _ _
  | DoneFind req _ _ _ | Reference req _ | Failed req _ => req
  end.

(** Case analysis on every bind, match and test of a handler's result. *)
Ltac outcome_cases H :=
  unfold mbind, outcome_bind in H;
  repeat match type of H with
    | context [match ?x with _ => _ end] => destruct x eqn:?
    | context [if ?b then _ else _] => destruct b eqn:?
    end;
  try discriminate H.


(** The dict template of [test_dict_substitution]. *)
Definition flowers : gmap string value :=
  {[ "{{flower1}}" := VStr "{{color1}}"; "{{flower2}}" := VStr "{{color2}}" ]}.

(** A step with a [find] of its own that extends a mapping with another. *)
Definition step_override : gmap string value :=
  {[ "find" := VStr "own";
     "extends" := VDict {[ "find" := VStr "base"; "replace" := VStr "$1" ]} ]}.

(** A step with both operation keys. *)
Definition step_both : gmap string value :=
  {[ "find" := VStr "(\d+)"; "replace" := VStr "$1";
     "load" := VStr "http://h/" ]}.

(** A document with [then], [description] and an inline [extends]. *)
Definition doc_extends : gmap string value :=
  {[ "find" := VStr "own"; "then" := VList []; "description" := VStr "d";
     "extends" := VDict {[ "find" := VStr "(\d+)"; "replace" := VStr "$1" ]} ]}.

(** The find step of section 8 of the specification. *)
Definition find_digits : gmap string value :=
  {[ "find" := VStr "(\d+)"; "replace" := VStr "$1" ]}.

(** The same step, from the second occurrence on. *)
Definition find_from_second : gmap string value :=
  <["min_match":=VInt 1]> find_digits.

(** A load step as [_scrape_dict] dispatches it, and as [_scrape_load]
    reads it. *)
Definition load_plain : gmap string value :=
  {[ "load" := VStr "http://h/"; "url" := VStr "http://h/" ]}.

(** The same step with a [force] key of its own. *)
Definition load_forced : gmap string value :=
  <["force":=VBool true]> load_plain.

(** The call either of them makes on the session. *)
Definition call_plain : fetch_call :=
  mkCall "get" (RStr "http://h/") None (RDict ∅) (RDict ∅).

(** A load step whose header names a tag. *)
Definition load_headers : gmap string value :=
  {[ "url" := VStr "http://h/";
     "headers" := VDict {[ "X-Token" := VStr "{{token}}" ]} ]}.

(** ** The loop over a list, and what the further properties read *)

(** The loop of [scrape] over the elements of a list, for a given way [f]
    of scraping one element. *)
Fixpoint each_of (f : value -> ran value) (l : list value)
  : outcome (list Response) * list value * list fetch_call :=
  match l with
  | [] => (Return [], [], [])
  | i :: rest =>
      let r := f i in
      match outcome_of r with
      | Raise e => (Raise e, document r :: rest, calls r)
      | Return resp =>
          let '(resps, rest', made) := each_of f rest in
          (resps ← resps; Return (resp :: resps),
           document r :: rest', (calls r ++ made)%list)
      end
  end.

(** A response with no [Wait] and no [DoneLoad] in it, at any depth of
    [Reference]. *)
Fixpoint no_load (r : Response) : bool :=
  match r with
  | Wait _ _ _ | DoneLoad _ _ _ _ => false
  | Reference _ resps => forallb no_load resps
  | MissingTags _ _ | DoneFind _ _ _ _ | Failed _ _ => true
  end.

(** Splitting the equations a case analysis leaves: binds, pairs, tests. *)
Ltac split_binds :=
  repeat match goal with
    | E : match ?x with _ => _ end = _ |- _ =>
        destruct x eqn:?; try discriminate E
    | E : Return _ = Return _ |- _ => inversion E; subst; clear E
    | E : (_, _) = (_, _) |- _ => inversion E; subst; clear E
    | E : negb _ = false |- _ => apply negb_false_iff in E
    | E : negb _ = true |- _ => apply negb_true_iff in E
    end.

(** Case analysis on a result of [_scrape_load] or [_scrape_find], and the
    resolution of the templates a statement reads. *)
Ltac load_cases H :=
  unfold _scrape_load in H; outcome_cases H; split_binds.

Ltac find_cases H :=
  unfold _scrape_find in H; outcome_cases H; split_binds.

Ltac resolve_reads :=
  unfold read;
  repeat match goal with
    | E : new _ _ = Return _ |- _ => rewrite E; clear E
    end;
  cbn [mbind outcome_bind].

(** A mapping that extends the find step of the specification. *)
Definition chain_mid : gmap string value :=
  {[ "find" := VStr "mid"; "name" := VStr "digits";
     "extends" := VDict find_digits ]}.

(** A step that extends [chain_mid]. *)
Definition step_chain : gmap string value :=
  {[ "find" := VStr "own"; "case_insensitive" := VBool true;
     "extends" := VDict chain_mid ]}.

(** A step that extends a remote instruction. *)
Definition doc_remote : gmap string value :=
  {[ "find" := VStr "x"; "then" := VList []; "extends" := VStr "base.json" ]}.

(** A load step whose url and cookies name tags. *)
Definition load_paged : gmap string value :=
  {[ "url" := VStr "http://h/{{page}}";
     "cookies" := VDict {[ "sid" := VStr "{{sid}}" ]} ]}.

(** The requests of the evaluations below. *)
Definition req_a1 : Request := request_for find_digits ∅ "a1" (VBool false).

Definition req_forced : Request := request_for load_forced ∅ "" (VBool true).

(** ** Lists that share objects *)

(** [scrape] rewrites the dicts it is given in place, and a list may hold
    the same dict object at several positions. Such an instruction is
    described by its [shape], where a dict is named by the address of the
    object, and by a [heap] that holds what each object contains. What an
    object contains is held by value: a dict nested in an object is a dict
    of its own, that no position of a list names. *)

Inductive plain : Type :=
| PNone
| PBool (b : bool)
| PInt (z : Z)
| PStr (s : string).

Definition value_of_plain (p : plain) : value :=
  match p with
  | PNone => VNone
  | PBool b => VBool b
  | PInt z => VInt z
  | PStr s => VStr s
  end.

Inductive shape : Type :=
| Obj (a : nat)
| Items (l : list shape)
| Plain (p : plain).

Definition heap : Type := nat -> gmap string value.

(** In-place rewriting of the object at [a]. *)
Definition store (a : nat) (d : gmap string value) (h : heap) : heap :=
  fun b => if decide (b = a) then d else h b.

(** The instruction as [copy.deepcopy] sees it. *)
Fixpoint snapshot (h : heap) (ins : shape) : value :=
  match ins with
  | Obj a => VDict (h a)
  | Items l => VList (map (snapshot h) l)
  | Plain p => value_of_plain p
  end.

(** The objects an instruction names, one entry per occurrence. *)
Fixpoint objects (ins : shape) : list nat :=
  match ins with
  | Obj a => [a]
  | Items l => concat (map objects l)
  | Plain _ => []
  end.

(** What a scrape leaves: the outcome, the heap and the calls made. *)
Definition scraped : Type := outcome Response * heap * list fetch_call.

(** The loop of [scrape] over the elements of a list: every element is
    scraped in the heap the elements before it have left. *)
Fixpoint each_shared (f : shape -> heap -> scraped) (l : list shape) (h : heap)
  : outcome (list Response) * heap * list fetch_call :=
  match l with
  | [] => (Return [], h, [])
  | i :: rest =>
      let '(o, h1, made1) := f i h in
      match o with
      | Raise e => (Raise e, h1, made1)
      | Return resp =>
          let '(resps, h2, made2) := each_shared f rest h1 in
          (resps ← resps; Return (resp :: resps), h2, (made1 ++ made2)%list)
      end
  end.

Section Shared.
Variable engine :
  resolved -> value -> value -> value -> resolved -> string ->
  outcome (list string).

(** [Scraper.scrape] on an instruction given by its shape: a dict is
    handed to [_scrape_dict] as the object itself and is left rewritten in
    the heap; the request keeps the deep copy taken before. *)
Fixpoint scrape_shared (ins : shape) (h : heap) (tags : gmap string string)
    (input : string) (force : value) (id uri : option string) : scraped :=
  match ins with
  | Plain p =>
      let r := scrape engine (value_of_plain p) tags input force id uri in
      (outcome_of r, h, calls r)
  | Items l =>
      let req := mkRequest (snapshot h ins) tags input force
                           (request_id_of id) (request_uri_of uri) in
      let '(resps, h', made) :=
        each_shared
          (fun i h => scrape_shared i h tags input (VBool false) None None)
          l h in
      (resps ← resps; Return (Reference req resps), h', made)
  | Obj a =>
      let req := mkRequest (snapshot h ins) tags input force
                           (request_id_of id) (request_uri_of uri) in
      let r := _scrape_dict engine req (h a) in
      (outcome_of r, store a (document r) h, calls r)
  end.
End Shared.


(** Two heaps with the same content at the given objects. *)
Definition agree (objs : list nat) (h1 h2 : heap) : Prop :=
  forall a, a ∈ objs -> h1 a = h2 a.

(** [f] on [i] writes only the objects of [i] and reads no other. *)
Definition local (f : shape -> heap -> scraped) (i : shape) : Prop :=
  (forall h a, a ∉ objects i -> (f i h).1.2 a = h a)
  /\ (forall h1 h2, agree (objects i) h1 h2 ->
      (f i h1).1.1 = (f i h2).1.1 /\ (f i h1).2 = (f i h2).2
      /\ agree (objects i) (f i h1).1.2 (f i h2).1.2).

(** Two objects, and one object with an [extends] that brings a
    description. *)
Definition heap_docs : heap :=
  store 0 doc_extends (store 1 find_digits (fun _ => ∅)).

Definition heap_shared : heap :=
  store 0 {[ "find" := VStr "(\d+)"; "replace" := VStr "$1";
             "extends" := VDict {[ "description" := VStr "base d" ]} ]}
        (fun _ => ∅).

(** The description a response carries. *)
Definition description_of (r : Response) : value :=
  match r with
  | Wait _ _ d | DoneLoad _ _ d _ | DoneFind _ _ d _ => d
  | _ => VNone
  end.

(** * Properties *)

(** ** Strings *)




(** ** The scanner of string templates *)


















(** ** Dict operations *)

Lemma get_insert_ne (d : gmap string value) (k k' : string) (v dflt : value) :
  k ≠ k' -> get (<[k':=v]> d) k dflt = get d k dflt.
Proof. intros Hk. unfold get. by rewrite lookup_insert_ne. Qed.

Lemma contains_insert_ne (d : gmap string value) (k k' : string) (v : value) :
  k ≠ k' -> contains (<[k':=v]> d) k = contains d k.
Proof. intros Hk. unfold contains. by rewrite lookup_insert_ne. Qed.

Lemma contains_true (d : gmap string value) (k : string) :
  contains d k = true <-> is_Some (d !! k).
Proof. unfold contains. apply bool_decide_eq_true. Qed.

Lemma contains_false (d : gmap string value) (k : string) :
  contains d k = false <-> d !! k = None.
Proof.
  unfold contains. rewrite bool_decide_eq_false. symmetry.
  apply eq_None_not_Some.
Qed.

(** [update] is [dict.update]: the argument's keys win. *)
Lemma update_written (d e : gmap string value) (k : string) (v : value) :
  e !! k = Some v -> update d e !! k = Some v.
Proof. intros He. unfold update. by apply lookup_union_Some_l. Qed.

Lemma update_kept (d e : gmap string value) (k : string) :
  e !! k = None -> update d e !! k = d !! k.
Proof. intros He. unfold update. by apply lookup_union_r. Qed.

(** ** The [extends] loop *)

Lemma extends_loop_at (i : gmap string value) (o : option value)
    (H : i !! "extends" = o) :
  extends_loop i = extends_loop_unfold_clause_1 i (exist _ o H).
Proof. rewrite extends_loop_equation_1. destruct H. reflexivity. Qed.

Lemma extends_loop_absent (i : gmap string value) :
  i !! "extends" = None -> extends_loop i = (Return (), i).
Proof. intros H. by rewrite (extends_loop_at i _ H). Qed.

Lemma extends_loop_dict (i e : gmap string value) :
  i !! "extends" = Some (VDict e) ->
  extends_loop i = extends_loop (update (delete "extends" i) e).
Proof. intros H. by rewrite (extends_loop_at i _ H). Qed.

Lemma extends_loop_str (i : gmap string value) (uri : string) :
  i !! "extends" = Some (VStr uri) ->
  extends_loop i
  = (Raise (NotImplementedError
              "Remotely constructed instructions not yet supported"),
     delete "extends" i).
Proof. intros H. by rewrite (extends_loop_at i _ H). Qed.

Lemma extends_loop_other (i : gmap string value) (ext : value) :
  i !! "extends" = Some ext ->
  match ext with VStr _ | VDict _ => False | _ => True end ->
  extends_loop i
  = (Raise (InvalidInstruction ExtendsShape), delete "extends" i).
Proof.
  intros H Hshape. rewrite (extends_loop_at i _ H).
  by destruct ext.
Qed.



(** C4, as stated, fails: the step's own [find] is replaced by the one of
    the mapping it extends. *)
Lemma extends_overrides_counterexample :
  step_override !! "find" = Some (VStr "own")
  /\ extends_loop step_override
     = (Return (), {[ "find" := VStr "base"; "replace" := VStr "$1" ]})
  /\ ~ (forall (step : gmap string value) (k : string) (v : value),
          k ≠ "extends" -> step !! k = Some v ->
          (extends_loop step).2 !! k = Some v).
Proof.
  assert (Hrun : extends_loop step_override
                 = (Return (), {[ "find" := VStr "base";
                                  "replace" := VStr "$1" ]})).
  { vm_compute. reflexivity. }
  split; [reflexivity|]. split; [exact Hrun|].
  intros Hnever.
  specialize (Hnever step_override "find" (VStr "own")).
  rewrite Hrun in Hnever.
  assert (Hk : "find" ≠ "extends") by discriminate.
  specialize (Hnever Hk eq_refl). vm_compute in Hnever. discriminate Hnever.
Qed.

(** C4, amended. Each round of the loop pops [extends]; an inline mapping is
    merged with [dict.update]: every key of the mapping is written into the
    step, replacing the step's own value where the key was present, the
    other keys of the step are kept, and the loop goes on with the merged
    step (so it ends there when the mapping has no [extends] of its own); a
    string raises [NotImplementedError], any other value
    [InvalidInstruction]. *)
Theorem extends_merge (step : gmap string value) (ext : value) :
  step !! "extends" = Some ext ->
  match ext with
  | VDict e =>
      let merged := update (delete "extends" step) e in
      extends_loop step = extends_loop merged
      /\ (forall k v, e !! k = Some v -> merged !! k = Some v)
      /\ (forall k, e !! k = None -> k ≠ "extends" -> merged !! k = step !! k)
      /\ (e !! "extends" = None -> extends_loop step = (Return (), merged))
  | VStr _ =>
      extends_loop step
      = (Raise (NotImplementedError
                  "Remotely constructed instructions not yet supported"),
         delete "extends" step)
  | _ =>
      extends_loop step
      = (Raise (InvalidInstruction ExtendsShape), delete "extends" step)
  end.
Proof.
  intros Hext.
  destruct ext as [| b | z | uri | l | e];
    try (by apply (extends_loop_other step _ Hext)).
  - exact (extends_loop_str step uri Hext).
  - cbv zeta. split; [exact (extends_loop_dict step e Hext)|].
    split; [|split].
    + intros k v He. by apply update_written.
    + intros k He Hk. rewrite update_kept by done.
      by rewrite lookup_delete_ne.
    + intros He. rewrite (extends_loop_dict step e Hext).
      apply extends_loop_absent.
      rewrite update_kept by done. apply lookup_delete_eq.
Qed.

Lemma extends_merge_witness :
  extends_loop step_override
  = (Return (),
     update (delete "extends" step_override)
            {[ "find" := VStr "base"; "replace" := VStr "$1" ]}).
Proof.
  pose proof (extends_merge step_override
                (VDict {[ "find" := VStr "base"; "replace" := VStr "$1" ]})
                eq_refl) as H.
  cbv zeta in H. destruct H as (_ & _ & _ & H). apply H. reflexivity.
Defined.

(** ** Dispatch of a step *)

(** The responses of [_scrape_find] carry the request it was given. *)
Lemma _scrape_find_request engine req i d t resp :
  _scrape_find engine req i d t = Return resp -> request_of resp = req.
Proof.
  unfold _scrape_find. intros H. outcome_cases H;
    injection H as <-; reflexivity.
Qed.


Lemma _scrape_dict_calls engine req (i : gmap string value) :
  calls (_scrape_dict engine req i) = [].
Proof.
  unfold _scrape_dict. cbv zeta.
  destruct (extends_loop (delete "description" (delete "then" i)))
    as [[[]|e] merged]; simpl; repeat case_match; reflexivity.
Qed.

(** C5, as stated, fails where both keys are present: the step is
    evaluated as a [find] and answers [DoneFind]. *)
Lemma both_keys_counterexample :
  is_Some (step_both !! "find") /\ is_Some (step_both !! "load")
  /\ outcome_of (_scrape_dict Regex_digits
                   (request_for step_both ∅ "a1" (VBool false)) step_both)
     = Return (DoneFind (request_for step_both ∅ "a1" (VBool false))
                 (RStr "(\d+)") VNone [mkResult "1" None]).
Proof.
  split; [by eexists|]. split; [by eexists|]. vm_compute. reflexivity.
Qed.

(** C5, amended. Once [extends] is merged: a step with neither [find] nor
    [load] raises [InvalidInstruction] (an exception, not a [Failed]
    response); a step with a [find] key is evaluated as a find step, whether
    or not it has a [load] key too. *)
Theorem dispatch_on_operation_key engine req (step merged : gmap string value) :
  extends_loop (delete "description" (delete "then" step))
    = (Return (), merged) ->
  (merged !! "find" = None -> merged !! "load" = None ->
   outcome_of (_scrape_dict engine req step)
   = Raise (InvalidInstruction NoFindOrLoad))
  /\ (is_Some (merged !! "find") ->
      outcome_of (_scrape_dict engine req step)
      = _scrape_find engine req merged
          (get (delete "then" step) "description" VNone)
          (get step "then" (VList []))).
Proof.
  intros Hloop. unfold _scrape_dict. cbv zeta. rewrite Hloop. split.
  - intros Hfind Hload.
    apply contains_false in Hfind, Hload. by rewrite Hfind, Hload.
  - intros Hfind. apply contains_true in Hfind. by rewrite Hfind.
Qed.

Lemma dispatch_on_operation_key_witness :
  outcome_of (_scrape_dict Regex_digits
                (request_for ∅ ∅ "" (VBool false))
                {[ "description" := VStr "nothing to do" ]})
  = Raise (InvalidInstruction NoFindOrLoad)
  /\ outcome_of (_scrape_dict Regex_digits
                   (request_for step_both ∅ "a1" (VBool false)) step_both)
     = _scrape_find Regex_digits
         (request_for step_both ∅ "a1" (VBool false)) step_both
         VNone (VList []).
Proof.
  split.
  - refine (proj1 (dispatch_on_operation_key Regex_digits _
                     {[ "description" := VStr "nothing to do" ]} ∅ _) _ _).
    + vm_compute. reflexivity.
    + reflexivity.
    + reflexivity.
  - refine (proj2 (dispatch_on_operation_key Regex_digits _
                     step_both step_both _) _).
    + vm_compute. reflexivity.
    + vm_compute. eexists. reflexivity.
Defined.

(** ** The caller's document *)




(** ** The find step *)

(** The three keys of the match-count window are read and never handed on:
    the response does not depend on them. *)
Lemma _scrape_find_ignores engine req (i : gmap string value) d t k v :
  k = "min_match" \/ k = "max_match" \/ k = "match" ->
  _scrape_find engine req (<[k:=v]> i) d t = _scrape_find engine req i d t.
Proof.
  intros Hk. unfold _scrape_find.
  rewrite contains_insert_ne by (destruct Hk as [->|[->| ->]]; discriminate).
  rewrite !(get_insert_ne i _ k)
    by (destruct Hk as [->|[->| ->]]; discriminate).
  reflexivity.
Qed.

(** When the engine yields nothing the step answers [Failed "No matches"]. *)
Lemma _scrape_find_no_matches engine req (i : gmap string value) d t
    findSub replaceSub nameSub findR replace :
  is_Some (i !! "find") ->
  new (get i "find" VNone) (tags req) = Return findSub ->
  new (get i "replace" (VStr "$0")) (tags req) = Return replaceSub ->
  new (get i "name" VNone) (tags req) = Return nameSub ->
  add_missing [findSub; replaceSub; nameSub] = [] ->
  result findSub = Return findR ->
  result replaceSub = Return replace ->
  engine findR (get i "case_insensitive" (VBool false))
         (get i "multiline" (VBool false))
         (get i "dot_matches_all" (VBool true)) replace (input req)
    = Return [] ->
  _scrape_find engine req i d t = Return (Failed req "No matches").
Proof.
  intros Hfind Hf Hr Hn Hmiss HfR HrR Hengine.
  unfold _scrape_find. apply contains_true in Hfind. rewrite Hfind.
  cbn [negb]. rewrite Hf, Hr, Hn. cbn [mbind outcome_bind].
  rewrite Hmiss.
  assert (HnR : exists nameR, result nameSub = Return nameR).
  { unfold result. unfold add_missing in Hmiss.
    destruct (missing_tags nameSub) as [|x l] eqn:Hm; [by eexists|].
    exfalso. cbn [mbind list_bind mjoin] in Hmiss.
    destruct (missing_tags findSub); [|discriminate Hmiss].
    destruct (missing_tags replaceSub); [|discriminate Hmiss].
    cbn in Hmiss. rewrite Hm in Hmiss. discriminate Hmiss. }
  destruct HnR as [nameR HnR]. rewrite HnR, HfR, HrR.
  cbn [mbind outcome_bind]. rewrite Hengine. reflexivity.
Qed.

(** A [DoneFind] never carries an empty list of results. *)
Lemma _scrape_find_done_nonempty engine req (i : gmap string value) d t
    req' name d' results :
  _scrape_find engine req i d t = Return (DoneFind req' name d' results) ->
  results <> [].
Proof.
  unfold _scrape_find. intros H. outcome_cases H;
    injection H as <- <- <- <-; discriminate.
Qed.

(** C2. The match-count window is not honoured: [min_match], [max_match]
    and [match] do not change the response. On ["a1 b22 c333"] the step
    yields all three occurrences with [min_match = 1] and with [match = 0],
    where the window keeps [["22"; "333"]] and [["1"]]. *)
Theorem window_not_applied :
  (forall engine req (i : gmap string value) d t v,
      _scrape_find engine req (<["min_match":=v]> i) d t
      = _scrape_find engine req i d t
      /\ _scrape_find engine req (<["max_match":=v]> i) d t
         = _scrape_find engine req i d t
      /\ _scrape_find engine req (<["match":=v]> i) d t
         = _scrape_find engine req i d t)
  /\ (let req := request_for find_digits ∅ "a1 b22 c333" (VBool false) in
      let all := [mkResult "1" None; mkResult "22" None; mkResult "333" None] in
      _scrape_find Regex_digits req find_digits VNone (VList [])
      = Return (DoneFind req (RStr "(\d+)") VNone all)
      /\ _scrape_find Regex_digits req (<["min_match":=VInt 1]> find_digits)
           VNone (VList [])
         = Return (DoneFind req (RStr "(\d+)") VNone all)
      /\ _scrape_find Regex_digits req (<["match":=VInt 0]> find_digits)
           VNone (VList [])
         = Return (DoneFind req (RStr "(\d+)") VNone all)
      /\ window 1 (-1) (digit_runs "" "a1 b22 c333") = ["22"; "333"]
      /\ window 0 0 (digit_runs "" "a1 b22 c333") = ["1"]).
Proof.
  split.
  - intros engine req i d t v.
    split; [|split]; apply _scrape_find_ignores; auto.
  - cbv zeta. repeat split; vm_compute; reflexivity.
Qed.

(** C8. On ["a1"] with [min_match = 1] the window leaves no occurrence,
    and the step still answers [DoneFind] with the occurrence the window
    excludes (the defect of C2). When the engine itself yields nothing the
    step does answer [Failed "No matches"]. *)
Theorem bounded_no_match_not_failed :
  let req := request_for find_from_second ∅ "a1" (VBool false) in
  window 1 (-1) (digit_runs "" "a1") = []
  /\ _scrape_find Regex_digits req find_from_second VNone (VList [])
     = Return (DoneFind req (RStr "(\d+)") VNone [mkResult "1" None])
  /\ _scrape_find Regex_digits
       (request_for find_digits ∅ "abc" (VBool false)) find_digits
       VNone (VList [])
     = Return (Failed (request_for find_digits ∅ "abc" (VBool false))
                 "No matches").
Proof.
  cbv zeta. repeat split; vm_compute; reflexivity.
Qed.

(** ** The load step *)

(** The [force] argument of [_scrape_load] is never read. *)
Lemma _scrape_load_force_unused session repr req (i : gmap string value)
    (force force' : value) d t :
  _scrape_load session repr req i force d t
  = _scrape_load session repr req i force' d t.
Proof. reflexivity. Qed.

(** What gates the call on the session is the [force] key of the
    instruction: without it no call is made. *)
Lemma _scrape_load_unforced_no_call session repr req (i : gmap string value)
    force d t :
  eq_True (get i "force" VNone) = false ->
  (_scrape_load session repr req i force d t).2 = [].
Proof.
  intros Hforce. unfold _scrape_load. rewrite Hforce. cbn [negb].
  unfold mbind, outcome_bind. repeat case_match; reflexivity.
Qed.

(** Names missing from [url], [name], [posts] or [cookies] stop the step
    before any call. *)
Lemma _scrape_load_missing_tags session repr req (i : gmap string value)
    force d t urlSub nameSub postsSub cookiesSub headersSub name names :
  is_Some (i !! "url") ->
  (eq_str (get i "method" (VStr "get")) "head"
   || eq_str (get i "method" (VStr "get")) "get"
   || eq_str (get i "method" (VStr "get")) "post") = true ->
  new (get i "url" VNone) (tags req) = Return urlSub ->
  new (get i "name" VNone) (tags req) = Return nameSub ->
  new (get i "posts" VNone) (tags req) = Return postsSub ->
  new (get i "cookies" (VDict ∅)) (tags req) = Return cookiesSub ->
  new (get i "headers" (VDict ∅)) (tags req) = Return headersSub ->
  add_missing [urlSub; nameSub; postsSub; cookiesSub] = name :: names ->
  _scrape_load session repr req i force d t
  = (Return (MissingTags req (name :: names)), []).
Proof.
  intros Hurl Hmethod Hu Hn Hp Hc Hh Hmiss.
  unfold _scrape_load. apply contains_true in Hurl. rewrite Hurl, Hmethod.
  cbn [negb]. rewrite Hu, Hn, Hp, Hc, Hh. cbn [mbind outcome_bind].
  by rewrite Hmiss.
Qed.

(** C1. The gate of the load step does not read the caller's [force]:
    [_scrape_load] never consults its [force] argument. With the caller's
    flag false and a [force] key in the instruction the call on the session
    is made; with the caller's flag true and no such key the answer is
    [Wait]; and through [scrape] a load step raises [TypeError] whatever
    the flag, [_scrape_dict] calling [_scrape_load] one argument short. *)
Theorem force_flag_not_consulted :
  (forall session repr req (i : gmap string value) force force' d t,
      _scrape_load session repr req i force d t
      = _scrape_load session repr req i force' d t)
  /\ (forall session repr t,
        (_scrape_load session repr
           (request_for load_forced ∅ "" (VBool false))
           load_forced (VBool false) VNone t).2 = [call_plain])
  /\ (forall session repr t,
        _scrape_load session repr
          (request_for load_plain ∅ "" (VBool true))
          load_plain (VBool true) VNone t
        = (Return (Wait (request_for load_plain ∅ "" (VBool true))
                     (RStr "http://h/") VNone), []))
  /\ (forall engine force,
        outcome_of (scrape engine (VDict load_plain) ∅ "" force None None)
        = Raise (TypeError
                   "_scrape_load() takes exactly 6 arguments (5 given)")).
Proof.
  split; [reflexivity|]. split; [|split].
  - intros session repr t. vm_compute. reflexivity.
  - intros session repr t. vm_compute. reflexivity.
  - intros engine force. vm_compute. reflexivity.
Qed.

(** C3. The children of a successful step are not evaluated:
    [_run_children] returns [None] whatever [then] holds, so the [Result]
    of a load answered with status 200 and every [Result] of a find carry
    [None] where the responses of [then] belong. *)
Theorem children_not_evaluated :
  (forall input then_, _run_children input then_ = None)
  /\ (forall repr body then_,
        _scrape_load (session_answers 200 body) repr
          (request_for load_forced ∅ "" (VBool true))
          load_forced (VBool true) VNone then_
        = (Return (DoneLoad (request_for load_forced ∅ "" (VBool true))
                     (RStr "http://h/") VNone (mkResult body None)),
           [call_plain]))
  /\ (forall then_,
        _scrape_find Regex_digits
          (request_for find_digits ∅ "a1" (VBool false))
          find_digits VNone then_
        = Return (DoneFind (request_for find_digits ∅ "a1" (VBool false))
                    (RStr "(\d+)") VNone [mkResult "1" None])).
Proof.
  split; [reflexivity|]. split.
  - intros repr body then_. vm_compute. reflexivity.
  - intros then_. vm_compute. reflexivity.
Qed.

(** C6. The names the [headers] template misses are not checked: with
    [{{token}}] in a header and no tag, the step answers [Wait] instead of
    [MissingTags], and once forced it raises [TemplateResultError] on
    reading the headers. *)
Theorem headers_missing_tags_unchecked :
  (headersSub ← new (get load_headers "headers" (VDict ∅)) ∅;
   Return (missing_tags headersSub)) = Return ["token"]
  /\ (forall session repr force t,
        _scrape_load session repr
          (request_for load_headers ∅ "" force) load_headers force VNone t
        = (Return (Wait (request_for load_headers ∅ "" force)
                     (RStr "http://h/") VNone), []))
  /\ (forall session repr force t,
        _scrape_load session repr
          (request_for load_headers ∅ "" force)
          (<["force":=VBool true]> load_headers) force VNone t
        = (Raise TemplateResultError, [])).
Proof.
  split; [vm_compute; reflexivity|]. split.
  - intros session repr force t. vm_compute. reflexivity.
  - intros session repr force t. vm_compute. reflexivity.
Qed.

(** C7. A transport error is not turned into [Failed]: the [except] clause
    names [requests.exception], which the package does not have, so the
    clause itself raises [AttributeError] and that reaches the caller. *)
Theorem transport_error_raised :
  (forall req e, except_RequestException req e
                 = Raise (AttributeError "exception"))
  /\ (forall repr msg t,
        _scrape_load (session_fails msg) repr
          (request_for load_forced ∅ "" (VBool true))
          load_forced (VBool true) VNone t
        = (Raise (AttributeError "exception"), [call_plain])).
Proof.
  split; [reflexivity|].
  intros repr msg t. vm_compute. reflexivity.
Qed.

(** ** The cases of [tests/test_templates.py] on the modelled templates *)

Example test_string_replace :
  read (VStr "roses are {{color}}") {[ "color" := "red" ]}
  = Return (RStr "roses are red").
Proof. vm_compute. reflexivity. Qed.

Example test_int_replace : read (VInt (-100)) ∅ = Return (RStr "-100").
Proof. vm_compute. reflexivity. Qed.

Example test_several_replacements :
  read (VStr "roses are {{roses}}, violets are {{violets}}")
       {[ "roses" := "red"; "violets" := "blue" ]}
  = Return (RStr "roses are red, violets are blue").
Proof. vm_compute. reflexivity. Qed.

Example test_missing_tag :
  missing (VStr "roses are {{color}}") ∅ = Return ["color"].
Proof. vm_compute. reflexivity. Qed.

Example test_missing_tag_access_raises_error :
  read (VStr "roses are {{color}}") ∅ = Raise TemplateResultError.
Proof. vm_compute. reflexivity. Qed.

Example test_invalid_template_class :
  read (VList [VList [VStr "foo"; VStr "bar"]; VInt 100]) ∅
  = Raise TemplateError.
Proof. vm_compute. reflexivity. Qed.

Example test_dict_substitution :
  read (VDict flowers)
       {[ "flower1" := "roses"; "flower2" := "violets";
          "color1" := "red"; "color2" := "blue" ]}
  = Return (RDict {[ "roses" := "red"; "violets" := "blue" ]}).
Proof. vm_compute. reflexivity. Qed.

Example test_dict_substitution_missing :
  missing (VDict flowers) {[ "flower2" := "violets"; "color1" := "red" ]}
  = Return ["flower1"; "color2"].
Proof. vm_compute. reflexivity. Qed.

Example test_url_encoding :
  read (VStr "{{foo}}") {[ "foo" := "bar baz" ]} = Return (RStr "bar+baz").
Proof. vm_compute. reflexivity. Qed.

Example test_not_url_encoding :
  read (VStr "{{{foo}}}") {[ "foo" := "bar baz" ]} = Return (RStr "bar baz").
Proof. vm_compute. reflexivity. Qed.

Example test_substituting_blank :
  read (VStr "nothing inside '{{blank}}'") {[ "blank" := "" ]}
  = Return (RStr "nothing inside ''").
Proof. vm_compute. reflexivity. Qed.

(** A find step whose pattern names an absent tag pauses on it. *)
Example find_missing_tag :
  _scrape_find Regex_digits
    (request_for {[ "find" := VStr "{{pattern}}" ]} ∅ "a1" (VBool false))
    {[ "find" := VStr "{{pattern}}" ]} VNone (VList [])
  = Return (MissingTags
              (request_for {[ "find" := VStr "{{pattern}}" ]} ∅ "a1"
                 (VBool false))
              ["pattern"]).
Proof. vm_compute. reflexivity. Qed.

(** A load step answered with 404 fails with the status in the reason. *)
Example load_status_404 :
  (_scrape_load (session_answers 404 "") repr_opaque
     (request_for load_forced ∅ "" (VBool true))
     load_forced (VBool true) VNone (VList [])).1
  = Return (Failed (request_for load_forced ∅ "" (VBool true))
              "Status code 404 from http://h/").
Proof. vm_compute. reflexivity. Qed.

(** * Further properties of the scraper *)

#[local] Open Scope list_scope.

Lemma scrape_list engine (l : list value) tags input force id uri :
  scrape engine (VList l) tags input force id uri
  = let '(resps, l', made) :=
      each_of (fun i => scrape engine i tags input (VBool false) None None) l in
    Ran (resps ← resps;
         Return (Reference (mkRequest (VList l) tags input force
                              (request_id_of id) (request_uri_of uri)) resps))
        (VList l') made.
Proof.
  cbn [scrape].
  match goal with
  | |- context [each_of ?f l] =>
      match goal with
      | |- (let '(_, _) := ?loop l in _) = _ =>
          assert (Hloop : forall l0, loop l0 = each_of f l0)
      end
  end.
  { induction l0 as [|i rest IH]; [reflexivity|].
    cbn [each_of]. cbv zeta. rewrite <- IH. reflexivity. }
  by rewrite Hloop.
Qed.

(** Induction on instruction documents, through the elements of a list. *)
Lemma value_list_ind (P : value -> Prop) :
  (forall v, match v with VList _ => True | _ => P v end) ->
  (forall l, Forall P l -> P (VList l)) ->
  forall v, P v.
Proof.
  intros Hleaf Hlist. fix IH 1. intros v.
  destruct v as [| b | z | s | l | d];
    [exact (Hleaf VNone) | exact (Hleaf (VBool b)) | exact (Hleaf (VInt z))
    | exact (Hleaf (VStr s)) | | exact (Hleaf (VDict d))].
  apply Hlist. induction l as [|i rest IHl]; constructor.
  - apply IH.
  - exact IHl.
Qed.

Lemma each_of_calls (f : value -> ran value) (l : list value) :
  Forall (fun i => calls (f i) = []) l -> (each_of f l).2 = [].
Proof.
  induction 1 as [|i rest Hi _ IH]; [reflexivity|].
  cbn [each_of]. cbv zeta. destruct (outcome_of (f i)); [|exact Hi].
  destruct (each_of f rest) as [[resps rest'] made]. simpl in *.
  by rewrite Hi, IH.
Qed.

(** X1. [scrape] never calls the session. *)
Theorem scrape_never_calls_session engine (ins : value) tags input force id uri :
  calls (scrape engine ins tags input force id uri) = [].
Proof.
  revert force id uri.
  apply (value_list_ind
           (fun ins => forall force id uri,
                calls (scrape engine ins tags input force id uri) = [])).
  - intros v. destruct v as [| b | z | s | l | d]; try done;
      intros force id uri.
    + simpl. repeat case_match; reflexivity.
    + simpl. apply _scrape_dict_calls.
  - intros l IH force id uri. rewrite scrape_list.
    pose proof (each_of_calls
                  (fun i => scrape engine i tags input (VBool false) None None) l)
      as Hcalls.
    destruct (each_of _ l) as [[resps l'] made]. simpl in *.
    apply Hcalls. eapply Forall_impl; [exact IH|]. intros i Hi. apply Hi.
Qed.

(** The responses of [_scrape_dict] carry the request it was given. *)
Lemma _scrape_dict_request engine req (d : gmap string value) resp :
  outcome_of (_scrape_dict engine req d) = Return resp ->
  request_of resp = req.
Proof.
  unfold _scrape_dict. cbv zeta.
  destruct (extends_loop (delete "description" (delete "then" d)))
    as [[[]|e] merged]; simpl; [|discriminate].
  repeat case_match; simpl; try discriminate.
  apply _scrape_find_request.
Qed.

(** X2. A response [scrape] returns carries the request of the call: the
    instruction as it was given, the tags, the input, the caller's force,
    and the id and uri keywords (a fresh uuid and the working directory
    when absent). *)
Theorem scrape_response_request engine (ins : value) tags input force id uri
    resp :
  outcome_of (scrape engine ins tags input force id uri) = Return resp ->
  request_of resp
  = mkRequest ins tags input force (request_id_of id) (request_uri_of uri).
Proof.
  destruct ins as [| b | z | s | l | d]; try discriminate.
  - simpl. unfold result. repeat case_match; discriminate.
  - rewrite scrape_list.
    destruct (each_of _ l) as [[[resps|e] l'] made]; simpl; [|discriminate].
    intros H. injection H as <-. reflexivity.
  - simpl. apply _scrape_dict_request.
Qed.

Lemma each_of_return (f : value -> ran value) (l : list value)
    (resps : list Response) :
  (each_of f l).1.1 = Return resps
  <-> Forall2 (fun i r => outcome_of (f i) = Return r) l resps.
Proof.
  revert resps. induction l as [|i rest IH]; intros resps.
  - simpl. split.
    + intros H. injection H as <-. constructor.
    + intros H. inversion H. reflexivity.
  - cbn [each_of]. cbv zeta.
    destruct (outcome_of (f i)) as [r|e] eqn:Hi.
    + destruct (each_of f rest) as [[[rs|e] rest'] made] eqn:Hrest;
        simpl in *; split.
      * intros H. injection H as <-. constructor; [done|]. by apply IH.
      * intros H. inversion H as [|? r' ? rs' Hr Hrs]; subst.
        rewrite Hi in Hr. injection Hr as <-.
        apply IH in Hrs. injection Hrs as <-. reflexivity.
      * discriminate.
      * intros H. inversion H as [|? r' ? rs' Hr Hrs]; subst.
        apply IH in Hrs. discriminate Hrs.
    + simpl. split; [discriminate|].
      intros H. inversion H as [|? r' ? rs' Hr Hrs]; subst.
      rewrite Hi in Hr. discriminate Hr.
Qed.

(** X5. A string instruction whose template misses no tag cannot be
    scraped: [scrape] raises the [NotImplementedError] of [_load_uri] and
    returns no response. *)
Theorem scrape_reference_not_supported engine (s : string) tags input force
    id uri :
  missing (VStr s) tags = Return [] ->
  outcome_of (scrape engine (VStr s) tags input force id uri)
  = Raise (NotImplementedError
             "Remotely constructed instructions not yet supported").
Proof.
  unfold missing.
  change (new (VStr s) tags) with (Return (sub_string s tags)).
  cbn [mbind outcome_bind]. intros Hm. injection Hm as Hm.
  change (missing_tags (sub_string s tags) = []) in Hm.
  cbn [scrape].
  change (new (VStr s) tags) with (Return (sub_string s tags)).
  cbv beta iota. rewrite Hm. cbn [outcome_of].
  unfold result. by rewrite Hm.
Qed.

(** X6. An [extends] that is not a mapping aborts the step before its
    operation key is looked at: a string raises [NotImplementedError], any
    other value [InvalidInstruction], whether or not the step has a [find]
    or a [load]; the caller's dict is left without its [then],
    [description] and [extends] keys. *)
Theorem scrape_extends_not_mergeable engine (doc : gmap string value)
    (ext : value) tags input force id uri :
  doc !! "extends" = Some ext ->
  match ext with VDict _ => False | _ => True end ->
  outcome_of (scrape engine (VDict doc) tags input force id uri)
    = Raise (match ext with
             | VStr _ =>
                 NotImplementedError
                   "Remotely constructed instructions not yet supported"
             | _ => InvalidInstruction ExtendsShape
             end)
  /\ document (scrape engine (VDict doc) tags input force id uri)
     = VDict (delete "extends" (delete "description" (delete "then" doc))).
Proof.
  intros Hext Hshape.
  assert (Hpop : delete "description" (delete "then" doc) !! "extends"
                 = Some ext).
  { by rewrite !lookup_delete_ne. }
  cbn [scrape outcome_of document]. unfold _scrape_dict. cbv zeta.
  destruct ext as [| b | z | uri' | l | e]; try done.
  all: try (rewrite (extends_loop_other _ _ Hpop I); done).
  rewrite (extends_loop_str _ _ Hpop). done.
Qed.

(** X7. Along a chain of inline [extends] the deepest mapping wins: with a
    step extending [e1] and [e1] extending [e2], a key of [e2] takes the
    value [e2] gives it, another key of [e1] the value [e1] gives it, and
    only the remaining keys keep the step's own value. *)
Theorem extends_chain_deepest_wins (step e1 e2 : gmap string value) :
  step !! "extends" = Some (VDict e1) ->
  e1 !! "extends" = Some (VDict e2) ->
  e2 !! "extends" = None ->
  exists merged,
    extends_loop step = (Return (), merged)
    /\ merged !! "extends" = None
    /\ (forall k v, e2 !! k = Some v -> merged !! k = Some v)
    /\ (forall k v, e2 !! k = None -> k ≠ "extends" -> e1 !! k = Some v ->
        merged !! k = Some v)
    /\ (forall k, e2 !! k = None -> e1 !! k = None -> k ≠ "extends" ->
        merged !! k = step !! k).
Proof.
  intros H1 H2 H3.
  set (m1 := update (delete "extends" step) e1).
  assert (Hm1 : m1 !! "extends" = Some (VDict e2)).
  { by apply update_written. }
  exists (update (delete "extends" m1) e2).
  split; [|split; [|split; [|split]]].
  - rewrite (extends_loop_dict step e1 H1). fold m1.
    rewrite (extends_loop_dict m1 e2 Hm1).
    apply extends_loop_absent.
    rewrite update_kept by done. apply lookup_delete_eq.
  - rewrite update_kept by done. apply lookup_delete_eq.
  - intros k v Hk. by apply update_written.
  - intros k v Hk Hne Hk1. rewrite update_kept by done.
    rewrite lookup_delete_ne by done. by apply update_written.
  - intros k Hk2 Hk1 Hne. rewrite update_kept by done.
    rewrite lookup_delete_ne by done. unfold m1.
    rewrite update_kept by done. by rewrite lookup_delete_ne.
Qed.

(** X8. A step that, once [extends] is merged, has a [load] key and no
    [find] key raises [TypeError] in [_scrape_dict]: [_scrape_load] is
    called one argument short and its body never runs. *)
Theorem load_step_raises_type_error engine req (step merged : gmap string value) :
  extends_loop (delete "description" (delete "then" step))
    = (Return (), merged) ->
  merged !! "find" = None ->
  is_Some (merged !! "load") ->
  outcome_of (_scrape_dict engine req step)
  = Raise (TypeError "_scrape_load() takes exactly 6 arguments (5 given)").
Proof.
  intros Hloop Hfind Hload. unfold _scrape_dict. cbv zeta. rewrite Hloop.
  apply contains_false in Hfind. apply contains_true in Hload.
  by rewrite Hfind, Hload.
Qed.

(** A response of [_scrape_find] is [MissingTags], [DoneFind] or [Failed]. *)
Lemma _scrape_find_no_load engine req i d t resp :
  _scrape_find engine req i d t = Return resp -> no_load resp = true.
Proof.
  unfold _scrape_find. intros H. outcome_cases H;
    injection H as <-; reflexivity.
Qed.

(** X9. Whatever the instruction, a response of [scrape] holds no [Wait]
    and no [DoneLoad], neither itself nor among the responses of a list:
    no path of [scrape] reaches the body of [_scrape_load]. *)
Theorem scrape_never_answers_load engine (ins : value) tags input force id uri
    resp :
  outcome_of (scrape engine ins tags input force id uri) = Return resp ->
  no_load resp = true.
Proof.
  revert force id uri resp.
  apply (value_list_ind
           (fun ins => forall force id uri resp,
                outcome_of (scrape engine ins tags input force id uri)
                = Return resp -> no_load resp = true)).
  - intros v. destruct v as [| b | z | s | l | d]; try done;
      intros force id uri resp; try discriminate.
    + simpl. unfold result. repeat case_match; discriminate.
    + simpl. unfold _scrape_dict. cbv zeta.
      destruct (extends_loop (delete "description" (delete "then" d)))
        as [[[]|e] merged]; simpl; [|discriminate].
      repeat case_match; simpl; try discriminate.
      apply _scrape_find_no_load.
  - intros l IH force id uri resp. rewrite scrape_list.
    pose proof (each_of_return
                  (fun i => scrape engine i tags input (VBool false) None None)
                  l) as Hret.
    destruct (each_of _ l) as [[[resps|e] l'] made]; simpl in *;
      [|discriminate].
    intros Hresp. injection Hresp as <-. cbn [no_load].
    pose proof (proj1 (Hret resps) eq_refl) as Hall.
    clear Hret. revert IH.
    induction Hall as [|i r l0 resps Hr Hall IHall]; intros IH;
      [reflexivity|].
    apply Forall_cons in IH as [Hi IH]. cbn [forallb].
    rewrite (Hi _ _ _ _ Hr). by apply IHall.
Qed.

(** X10. [_scrape_load] validates the instruction before anything else:
    without a [url] key it raises [InvalidInstruction] ("Missing URL"), and
    with a [method] other than [head], [get] or [post] it raises
    [InvalidInstruction] naming the method; this holds whatever the tags
    and the templates, and no call is made on the session. *)
Theorem _scrape_load_validates_first session repr req
    (i : gmap string value) force d t :
  (i !! "url" = None ->
   _scrape_load session repr req i force d t
   = (Raise (InvalidInstruction MissingURL), []))
  /\ (is_Some (i !! "url") ->
      (eq_str (get i "method" (VStr "get")) "head"
       || eq_str (get i "method" (VStr "get")) "get"
       || eq_str (get i "method" (VStr "get")) "post") = false ->
      _scrape_load session repr req i force d t
      = (Raise (InvalidInstruction
                  (IllegalHTTPMethod (get i "method" (VStr "get")))), [])).
Proof.
  split.
  - intros Hurl. apply contains_false in Hurl.
    unfold _scrape_load. by rewrite Hurl.
  - intros Hurl Hmethod. apply contains_true in Hurl.
    unfold _scrape_load. by rewrite Hurl, Hmethod.
Qed.

(** X11. [_scrape_load] makes at most one call on the session, and makes
    it only when the [force] entry of the instruction equals [True]. The
    call uses the method of the instruction and the resolved [url],
    [cookies] and [headers], and carries the resolved [posts] as data
    exactly when the method is [post] or [posts] is truthy. *)
Theorem _scrape_load_call_gated session repr req (i : gmap string value)
    force d t :
  match (_scrape_load session repr req i force d t).2 with
  | [] => True
  | [c] =>
      eq_True (get i "force" VNone) = true
      /\ call_method c = str_val (get i "method" (VStr "get"))
      /\ read (get i "url" VNone) (tags req) = Return (call_url c)
      /\ read (get i "cookies" (VDict ∅)) (tags req) = Return (call_cookies c)
      /\ read (get i "headers" (VDict ∅)) (tags req) = Return (call_headers c)
      /\ exists posts,
          read (get i "posts" VNone) (tags req) = Return posts
          /\ call_data c
             = if eq_str (get i "method" (VStr "get")) "post" || truthy posts
               then Some posts else None
  | _ :: _ :: _ => False
  end.
Proof.
  destruct (_scrape_load session repr req i force d t) as [o cs] eqn:H.
  load_cases H; cbn [snd]; try exact I.
  all: unfold read; cbn [call_method call_url call_cookies call_headers
                         call_data].
  all: repeat match goal with
         | E : new _ _ = Return _ |- _ => rewrite E; clear E
         end; cbn [mbind outcome_bind].
  all: repeat match goal with
         | E : result _ = Return _ |- _ => rewrite E
         end.
  all: repeat split; try done.
  all: eexists; (split; [reflexivity|]).
  all: match goal with E : (_ || truthy _) = _ |- _ => by rewrite E end.
Qed.

(** X12. When one of the [url], [name], [posts] and [cookies] templates
    of a valid load step misses a tag, [_scrape_load] answers [MissingTags]
    with the names the four miss together, each once, and makes no call:
    whatever the [force] entry, the [headers] template and the session. *)
Theorem _scrape_load_pauses_on_missing_tags session repr req
    (i : gmap string value) force d t
    urlSub nameSub postsSub cookiesSub headersSub :
  is_Some (i !! "url") ->
  (eq_str (get i "method" (VStr "get")) "head"
   || eq_str (get i "method" (VStr "get")) "get"
   || eq_str (get i "method" (VStr "get")) "post") = true ->
  new (get i "url" VNone) (tags req) = Return urlSub ->
  new (get i "name" VNone) (tags req) = Return nameSub ->
  new (get i "posts" VNone) (tags req) = Return postsSub ->
  new (get i "cookies" (VDict ∅)) (tags req) = Return cookiesSub ->
  new (get i "headers" (VDict ∅)) (tags req) = Return headersSub ->
  add_missing [urlSub; nameSub; postsSub; cookiesSub] <> [] ->
  _scrape_load session repr req i force d t
  = (Return (MissingTags req
               (add_missing [urlSub; nameSub; postsSub; cookiesSub])), []).
Proof.
  intros Hurl Hmethod Hu Hn Hp Hc Hh Hmiss.
  destruct (add_missing [urlSub; nameSub; postsSub; cookiesSub])
    as [|name names] eqn:Hnames; [done|].
  exact (_scrape_load_missing_tags session repr req i force d t
           urlSub nameSub postsSub cookiesSub headersSub name names
           Hurl Hmethod Hu Hn Hp Hc Hh Hnames).
Qed.

(** X13. [_scrape_load] answers [Failed] only for a call the session
    answered with a status other than 200, and the reason then reads
    "Status code <status> from <url>": no exception of the session ever
    becomes a [Failed]. *)
Theorem _scrape_load_failed_only_on_status session repr req
    (i : gmap string value) force d t req' reason cs :
  _scrape_load session repr req i force d t
    = (Return (Failed req' reason), cs) ->
  req' = req
  /\ exists c resp,
      cs = [c] /\ session c = Return resp
      /\ status_code resp <> 200%Z
      /\ reason = "Status code " +:+ pretty (status_code resp)
                  +:+ " from " +:+ str_resolved repr (call_url c).
Proof.
  intros H. load_cases H.
  all: try match goal with
         | E : except_RequestException _ _ = Return _ |- _ =>
             discriminate E
         end.
  all: split; [reflexivity|]; eexists; eexists.
  all: split; [reflexivity|]; split; [eassumption|].
  all: split; [by apply Z.eqb_neq | reflexivity].
Qed.

(** X14. [_scrape_load] answers [DoneLoad] only after exactly one call that
    the session answered with status 200; the result holds the text of that
    answer and [None] for its children, the description is the one passed
    in, and the name is the resolved [name] when truthy, else the resolved
    [url]. *)
Theorem _scrape_load_done session repr req (i : gmap string value)
    force d t req' name d' res cs :
  _scrape_load session repr req i force d t
    = (Return (DoneLoad req' name d' res), cs) ->
  req' = req /\ d' = d
  /\ (exists c resp,
        cs = [c] /\ session c = Return resp
        /\ status_code resp = 200%Z
        /\ res = mkResult (text resp) None)
  /\ (exists url nameR,
        read (get i "url" VNone) (tags req) = Return url
        /\ read (get i "name" VNone) (tags req) = Return nameR
        /\ name = if truthy nameR then nameR else url).
Proof.
  intros H. load_cases H.
  all: try match goal with
         | E : except_RequestException _ _ = Return _ |- _ =>
             discriminate E
         end.
  all: split; [reflexivity|]; split; [reflexivity|]; split.
  all: try (eexists; eexists; split; [reflexivity|]; split; [eassumption|];
            split; [by apply Z.eqb_eq | reflexivity]).
  all: unfold read;
    repeat match goal with
      | E : new _ _ = Return _ |- _ => rewrite E; clear E
      end; cbn [mbind outcome_bind].
  all: eexists; eexists; split; [eassumption|]; split; [eassumption|].
  all: first [reflexivity
             | match goal with E : truthy _ = _ |- _ => by rewrite E end].
Qed.

(** X15. [_scrape_load] answers [Wait] only without a call and only when
    the [force] entry of the instruction does not equal [True]; the
    description is the one passed in and the name is the resolved [name]
    when truthy, else the resolved [url]. *)
Theorem _scrape_load_wait session repr req (i : gmap string value)
    force d t req' name d' cs :
  _scrape_load session repr req i force d t
    = (Return (Wait req' name d'), cs) ->
  req' = req /\ d' = d /\ cs = []
  /\ eq_True (get i "force" VNone) = false
  /\ (exists url nameR,
        read (get i "url" VNone) (tags req) = Return url
        /\ read (get i "name" VNone) (tags req) = Return nameR
        /\ name = if truthy nameR then nameR else url).
Proof.
  intros H. load_cases H.
  all: try match goal with
         | E : except_RequestException _ _ = Return _ |- _ =>
             discriminate E
         end.
  all: split; [reflexivity|]; split; [reflexivity|]; split; [reflexivity|].
  all: split; [assumption|].
  all: unfold read;
    repeat match goal with
      | E : new _ _ = Return _ |- _ => rewrite E; clear E
      end; cbn [mbind outcome_bind].
  all: eexists; eexists; split; [eassumption|]; split; [eassumption|].
  all: first [reflexivity
             | match goal with E : truthy _ = _ |- _ => by rewrite E end].
Qed.

(** X16. [_scrape_find] answers [Failed] only with the reason
    "No matches", and only when the engine, given the resolved pattern and
    replacement and the input of the request, yielded no substitution. *)
Theorem _scrape_find_failed engine req (i : gmap string value) d t
    req' reason :
  _scrape_find engine req i d t = Return (Failed req' reason) ->
  req' = req /\ reason = "No matches"
  /\ exists findR replace,
      read (get i "find" VNone) (tags req) = Return findR
      /\ read (get i "replace" (VStr "$0")) (tags req) = Return replace
      /\ engine findR (get i "case_insensitive" (VBool false))
           (get i "multiline" (VBool false))
           (get i "dot_matches_all" (VBool true)) replace (input req)
         = Return [].
Proof.
  intros H. find_cases H.
  all: split; [reflexivity|]; split; [reflexivity|].
  all: resolve_reads; eexists; eexists.
  all: split; [eassumption|]; split; [eassumption|].
  all: match goal with
       | F : _ <$> ?l = [] |- _ =>
           destruct l; [assumption | discriminate F]
       end.
Qed.

(** X17. A [DoneFind] of [_scrape_find] lists the substitutions of the
    engine, all of them and in the engine's order, each with [None] for its
    children; there is at least one; the description is the one passed in
    and the name is the resolved [name] when truthy, else the resolved
    pattern. *)
Theorem _scrape_find_done engine req (i : gmap string value) d t
    req' name d' results :
  _scrape_find engine req i d t = Return (DoneFind req' name d' results) ->
  req' = req /\ d' = d
  /\ exists findR replace nameR substitutions,
      read (get i "find" VNone) (tags req) = Return findR
      /\ read (get i "replace" (VStr "$0")) (tags req) = Return replace
      /\ read (get i "name" VNone) (tags req) = Return nameR
      /\ engine findR (get i "case_insensitive" (VBool false))
           (get i "multiline" (VBool false))
           (get i "dot_matches_all" (VBool true)) replace (input req)
         = Return substitutions
      /\ substitutions <> []
      /\ results = (fun s => mkResult s None) <$> substitutions
      /\ name = if truthy nameR then nameR else findR.
Proof.
  intros H. find_cases H.
  all: split; [reflexivity|]; split; [reflexivity|].
  all: resolve_reads; eexists; eexists; eexists; eexists.
  all: split; [eassumption|]; split; [eassumption|]; split; [eassumption|].
  all: split; [eassumption|].
  all: match goal with
       | F : _ <$> ?l = _ :: _ |- _ =>
           split; [by destruct l|]; split; [by rewrite <- F|]
       end.
  all: first [reflexivity
             | match goal with E : truthy _ = _ |- _ => by rewrite E end].
Qed.

(** X18. [_scrape_find] pauses before the engine is consulted: when it
    answers [MissingTags] the list of names is not empty, and the answer is
    the same for every engine. *)
Theorem _scrape_find_pauses_before_engine engine req (i : gmap string value)
    d t req' names :
  _scrape_find engine req i d t = Return (MissingTags req' names) ->
  req' = req /\ names <> []
  /\ forall engine',
      _scrape_find engine' req i d t = Return (MissingTags req names).
Proof.
  intros H. find_cases H.
  split; [reflexivity|]. split; [discriminate|].
  intros engine'. unfold _scrape_find.
  repeat match goal with
    | E : contains _ _ = _ |- _ => rewrite E; clear E
    | E : new _ _ = Return _ |- _ => rewrite E; clear E
    end.
  cbn [negb mbind outcome_bind].
  match goal with E : add_missing _ = _ |- _ => by rewrite E end.
Qed.

(** The description of a [DoneFind] is the one [_scrape_find] was given. *)
Lemma _scrape_find_description engine req (i : gmap string value) d t
    req' name d' results :
  _scrape_find engine req i d t = Return (DoneFind req' name d' results) ->
  d' = d.
Proof. intros H. find_cases H; reflexivity. Qed.

(** X19. The description of a step is its own: [description] is popped
    before [extends] is merged, so a [DoneFind] carries the [description]
    of the step as written ([None] when it has none), never the one of a
    mapping it extends. *)
Theorem _scrape_dict_description_own engine req (step : gmap string value)
    req' name d' results :
  outcome_of (_scrape_dict engine req step)
    = Return (DoneFind req' name d' results) ->
  d' = get step "description" VNone.
Proof.
  unfold _scrape_dict. cbv zeta.
  destruct (extends_loop (delete "description" (delete "then" step)))
    as [[[]|e] merged]; simpl; [|discriminate].
  repeat case_match; simpl; try discriminate.
  intros Hdone. apply _scrape_find_description in Hdone. subst d'.
  unfold get. by rewrite lookup_delete_ne.
Qed.

(** ** Scraping in a heap *)

Lemma shape_list_ind (P : shape -> Prop) :
  (forall a, P (Obj a)) -> (forall p, P (Plain p)) ->
  (forall l, Forall P l -> P (Items l)) ->
  forall ins, P ins.
Proof.
  intros Hobj Hplain Hitems. fix IH 1. intros [a | l | p];
    [apply Hobj | | apply Hplain].
  apply Hitems. induction l as [|i rest IHl]; constructor.
  - apply IH.
  - exact IHl.
Qed.

Lemma snapshot_agree (ins : shape) (h1 h2 : heap) :
  agree (objects ins) h1 h2 -> snapshot h1 ins = snapshot h2 ins.
Proof.
  revert ins. apply (shape_list_ind
    (fun ins => agree (objects ins) h1 h2 -> snapshot h1 ins = snapshot h2 ins)).
  - intros a H. cbn. f_equal. apply H. cbn. apply list_elem_of_singleton.
    reflexivity.
  - reflexivity.
  - intros l IH H. cbn [snapshot]. f_equal.
    induction IH as [|i rest Hi _ IHrest]; [reflexivity|].
    cbn [map]. f_equal.
    + apply Hi. intros a Ha. apply H. cbn. apply elem_of_app. by left.
    + apply IHrest. intros a Ha. apply H. cbn. apply elem_of_app. by right.
Qed.

Lemma each_shared_writes (f : shape -> heap -> scraped) (l : list shape) :
  Forall (local f) l ->
  forall h a, a ∉ concat (map objects l) -> (each_shared f l h).1.2 a = h a.
Proof.
  induction 1 as [|i rest [Hw _] _ IH]; intros h a Ha; [reflexivity|].
  cbn [map concat] in Ha. apply not_elem_of_app in Ha as [Hi Hrest].
  cbn [each_shared]. specialize (Hw h a Hi).
  destruct (f i h) as [[[resp|e] h1] made1]; simpl in *; [|exact Hw].
  specialize (IH h1 a Hrest).
  destruct (each_shared f rest h1) as [[resps h2] made2]. simpl in *.
  by rewrite IH.
Qed.

Lemma each_shared_reads (f : shape -> heap -> scraped) (l : list shape) :
  Forall (local f) l ->
  forall h1 h2, agree (concat (map objects l)) h1 h2 ->
  (each_shared f l h1).1.1 = (each_shared f l h2).1.1
  /\ (each_shared f l h1).2 = (each_shared f l h2).2
  /\ agree (concat (map objects l)) (each_shared f l h1).1.2
        (each_shared f l h2).1.2.
Proof.
  induction 1 as [|i rest [Hw Hr] Hl IH]; intros h1 h2 Hagree.
  - repeat split. intros a Ha. by apply elem_of_nil in Ha.
  - cbn [map concat] in *.
    assert (Hi : agree (objects i) h1 h2).
    { intros a Ha. apply Hagree, elem_of_app. by left. }
    destruct (Hr h1 h2 Hi) as (Ho & Hc & Hh).
    assert (Hrest : agree (concat (map objects rest))
                      (f i h1).1.2 (f i h2).1.2).
    { intros a Ha. destruct (decide (a ∈ objects i)) as [Hin|Hout].
      - by apply Hh.
      - rewrite !Hw by done. apply Hagree, elem_of_app. by right. }
    cbn [each_shared].
    destruct (f i h1) as [[o1 g1] c1], (f i h2) as [[o2 g2] c2].
    simpl in *. subst o2 c2.
    destruct o1 as [resp|e].
    + destruct (IH g1 g2 Hrest) as (Ho' & Hc' & Hh').
      pose proof (each_shared_writes f rest) as Hwr.
      destruct (each_shared f rest g1) as [[rs1 k1] m1] eqn:E1.
      destruct (each_shared f rest g2) as [[rs2 k2] m2] eqn:E2.
      simpl in *. subst rs2 m2. repeat split.
      intros a Ha. apply elem_of_app in Ha as [Ha|Ha].
      * destruct (decide (a ∈ concat (map objects rest))) as [Hin|Hout];
          [by apply Hh'|].
        pose proof (Hwr Hl g1 a Hout) as W1. rewrite E1 in W1.
        pose proof (Hwr Hl g2 a Hout) as W2. rewrite E2 in W2.
        simpl in *. rewrite W1, W2. by apply Hh.
      * by apply Hh'.
    + simpl. repeat split. intros a Ha.
      apply elem_of_app in Ha as [Ha|Ha]; [by apply Hh | by apply Hrest].
Qed.

(** Scraping touches only the objects of the instruction it is given, and
    depends on no other. *)
Lemma scrape_shared_local engine tags input (ins : shape) :
  forall force id uri,
    local (fun i h => scrape_shared engine i h tags input force id uri) ins.
Proof.
  revert ins. apply (shape_list_ind
    (fun ins => forall force id uri,
         local (fun i h => scrape_shared engine i h tags input force id uri)
               ins)).
  - intros a force id uri. split.
    + intros h b Hb. cbn. unfold store.
      rewrite decide_False; [done|]. intros ->. apply Hb. cbn.
      by apply list_elem_of_singleton.
    + intros h1 h2 H.
      assert (Ha : h1 a = h2 a).
      { apply H. cbn. by apply list_elem_of_singleton. }
      cbn. rewrite Ha. repeat split.
      intros b Hb. cbn in Hb. apply list_elem_of_singleton in Hb as ->.
      unfold store. by rewrite !decide_True.
  - intros p force id uri. split.
    + reflexivity.
    + intros h1 h2 H. repeat split. intros a Ha. by apply elem_of_nil in Ha.
  - intros l IH force id uri.
    assert (Hl : Forall (local (fun i h => scrape_shared engine i h tags input
                                             (VBool false) None None)) l).
    { eapply Forall_impl; [exact IH|]. intros i Hi. apply Hi. }
    split.
    + intros h a Ha. cbn [scrape_shared].
      pose proof (each_shared_writes _ l Hl h a Ha) as Hw.
      destruct (each_shared _ l h) as [[resps h'] made]. exact Hw.
    + intros h1 h2 H. cbn [scrape_shared].
      rewrite (snapshot_agree (Items l) h1 h2 H).
      destruct (each_shared_reads _ l Hl h1 h2 H) as (Ho & Hc & Hh).
      destruct (each_shared _ l h1) as [[rs1 k1] m1].
      destruct (each_shared _ l h2) as [[rs2 k2] m2].
      simpl in *. subst rs2 m2. done.
Qed.

(** The loop over a concatenation is the loop over the first part followed
    by the loop over the second from the heap the first left. *)
Lemma each_shared_app (f : shape -> heap -> scraped) (l1 l2 : list shape)
    (h : heap) :
  each_shared f (l1 ++ l2) h
  = let '(o1, h1, made1) := each_shared f l1 h in
    match o1 with
    | Raise e => (Raise e, h1, made1)
    | Return resps1 =>
        let '(o2, h2, made2) := each_shared f l2 h1 in
        (resps2 ← o2; Return (resps1 ++ resps2), h2, made1 ++ made2)
    end.
Proof.
  revert h. induction l1 as [|i rest IH]; intros h.
  - cbn. destruct (each_shared f l2 h) as [[[rs|e] h2] made2]; reflexivity.
  - cbn [app each_shared].
    destruct (f i h) as [[[resp|e] h1] made1]; [|reflexivity].
    rewrite IH.
    destruct (each_shared f rest h1) as [[[rs1|e] g1] m1]; [|reflexivity].
    destruct (each_shared f l2 g1) as [[[rs2|e] g2] m2]; cbn;
      by rewrite app_assoc.
Qed.

Lemma each_shared_apart (f : shape -> heap -> scraped) (l : list shape)
    (h0 : heap) :
  Forall (local f) l ->
  NoDup (concat (map objects l)) ->
  forall h resps,
    agree (concat (map objects l)) h h0 ->
    ((each_shared f l h).1.1 = Return resps
     <-> Forall2 (fun i r => (f i h0).1.1 = Return r) l resps)
    /\ ((each_shared f l h).1.1 = Return resps ->
        forall i, i ∈ l ->
        agree (objects i) (each_shared f l h).1.2 (f i h0).1.2).
Proof.
  induction 1 as [|i rest [Hw Hr] Hl IH]; intros Hdup h resps Hagree.
  - split; [|intros _ i Hi; by apply elem_of_nil in Hi].
    cbn. split.
    + intros H. injection H as <-. constructor.
    + intros H. by inversion H.
  - cbn [map concat] in *. apply NoDup_app in Hdup as (_ & Hdisj & Hdup).
    assert (Hi : agree (objects i) h h0).
    { intros a Ha. apply Hagree, elem_of_app. by left. }
    destruct (Hr h h0 Hi) as (Ho & _ & Hh).
    assert (Hrest : agree (concat (map objects rest)) (f i h).1.2 h0).
    { intros a Ha. rewrite Hw.
      - apply Hagree, elem_of_app. by right.
      - intros Hin. by apply (Hdisj a). }
    pose proof (each_shared_writes f rest Hl (f i h).1.2) as Hwr.
    cbn [each_shared].
    destruct (f i h) as [[o h1] made1]. simpl in *.
    destruct o as [resp|e].
    + destruct resps as [|r rs].
      * split.
        -- split; [|intros H; inversion H].
           destruct (each_shared f rest h1) as [[[rs'|e] h2] made2];
             discriminate.
        -- destruct (each_shared f rest h1) as [[[rs'|e] h2] made2];
             discriminate.
      * destruct (IH Hdup h1 rs Hrest) as [Hiff Hheap].
        destruct (each_shared f rest h1) as [[[rs'|e] h2] made2] eqn:E;
          simpl in *.
        -- split.
           ++ split.
              ** intros H. injection H as <- <-.
                 constructor; [by symmetry|]. by apply Hiff.
              ** intros H. inversion H as [|? ? ? ? Hhead Htail]; subst.
                 rewrite <- Ho in Hhead. injection Hhead as <-.
                 apply Hiff in Htail. by injection Htail as <-.
           ++ intros H. injection H as <- <-. intros j Hj a Ha.
              apply elem_of_cons in Hj as [->|Hj].
              ** rewrite Hwr; [by apply Hh|].
                 intros Hin. by apply (Hdisj a).
              ** by apply (Hheap eq_refl j Hj).
        -- split; [|discriminate]. split; [discriminate|].
           intros H. inversion H as [|? ? ? ? Hhead Htail]; subst.
           apply Hiff in Htail. discriminate Htail.
    + simpl. split; [|discriminate]. split; [discriminate|].
      intros H. inversion H as [|? ? ? ? Hhead Htail]; subst.
      rewrite <- Ho in Hhead. discriminate Hhead.
Qed.

Lemma each_shared_length (f : shape -> heap -> scraped) (l : list shape)
    (h : heap) (resps : list Response) :
  (each_shared f l h).1.1 = Return resps -> length resps = length l.
Proof.
  revert h resps. induction l as [|i rest IH]; intros h resps.
  - cbn. intros H. by injection H as <-.
  - cbn [each_shared].
    destruct (f i h) as [[[resp|e] h1] made1]; [|discriminate].
    specialize (IH h1).
    destruct (each_shared f rest h1) as [[[rs|e] h2] made2]; [|discriminate].
    cbn. intros H. injection H as <-. cbn. f_equal. by apply IH.
Qed.

(** With no object shared, the loop over the shapes is the loop over their
    deep copies. *)
Lemma each_shared_distinct (f : shape -> heap -> scraped)
    (g : value -> ran value) (l : list shape) :
  Forall (local f) l ->
  Forall (fun i => forall h, NoDup (objects i) ->
            (f i h).1.1 = outcome_of (g (snapshot h i))
            /\ (f i h).2 = calls (g (snapshot h i))
            /\ snapshot (f i h).1.2 i = document (g (snapshot h i))) l ->
  NoDup (concat (map objects l)) ->
  forall h,
    (each_shared f l h).1.1 = (each_of g (map (snapshot h) l)).1.1
    /\ (each_shared f l h).2 = (each_of g (map (snapshot h) l)).2
    /\ map (snapshot (each_shared f l h).1.2) l
       = (each_of g (map (snapshot h) l)).1.2.
Proof.
  intros Hl. induction Hl as [|i rest [Hw Hr] Hl IH]; intros Hg Hdup h;
    [done|].
  apply Forall_cons in Hg as [Hi Hg].
  cbn [map concat] in *. apply NoDup_app in Hdup as (Hdi & Hdisj & Hdup).
  destruct (Hi h Hdi) as (Ho & Hc & Hd).
  assert (Hrest : map (snapshot (f i h).1.2) rest = map (snapshot h) rest).
  { apply map_ext_in. intros j Hj. apply snapshot_agree. intros a Ha.
    apply Hw. intros Hin. apply (Hdisj a Hin).
    apply list_elem_of_In, in_concat. exists (objects j).
    split; [by apply in_map|by apply list_elem_of_In]. }
  pose proof (each_shared_writes f rest Hl (f i h).1.2) as Hwr.
  specialize (IH Hg Hdup (f i h).1.2). rewrite Hrest in IH.
  cbn [each_shared each_of]. cbv zeta.
  destruct (f i h) as [[o h1] made1]. simpl in *.
  rewrite <- Ho, <- Hc, <- Hd.
  destruct o as [resp|e].
  - destruct IH as (Ho' & Hc' & Hd').
    destruct (each_shared f rest h1) as [[rs h2] made2]. simpl in *.
    destruct (each_of g (map (snapshot h) rest)) as [[rs' docs] made'].
    simpl in *. subst rs' made' docs. repeat split.
    f_equal. apply snapshot_agree. intros a Ha. apply Hwr.
    intros Hin. by apply (Hdisj a).
  - simpl. repeat split. by rewrite Hrest.
Qed.

(** On an instruction in which no object occurs twice, scraping in the
    heap is [scrape] on the deep copy: same outcome, same calls, and the
    objects are left as the document [scrape] leaves. *)
Lemma scrape_shared_distinct engine tags input (ins : shape) :
  forall (h : heap) force id uri,
    NoDup (objects ins) ->
    let s := scrape_shared engine ins h tags input force id uri in
    let r := scrape engine (snapshot h ins) tags input force id uri in
    s.1.1 = outcome_of r /\ s.2 = calls r /\ snapshot s.1.2 ins = document r.
Proof.
  revert ins. apply (shape_list_ind
    (fun ins => forall (h : heap) force id uri,
         NoDup (objects ins) ->
         let s := scrape_shared engine ins h tags input force id uri in
         let r := scrape engine (snapshot h ins) tags input force id uri in
         s.1.1 = outcome_of r /\ s.2 = calls r
         /\ snapshot s.1.2 ins = document r)).
  - intros a h force id uri _. cbn. repeat split.
    unfold store. by rewrite decide_True.
  - intros p h force id uri _. cbv zeta. cbn [scrape_shared snapshot].
    repeat split. cbn [fst snd].
    destruct p as [| b | z | s]; try reflexivity.
    cbn. repeat case_match; reflexivity.
  - intros l IH h force id uri Hdup. cbv zeta.
    cbn [snapshot]. rewrite scrape_list. cbn [scrape_shared snapshot].
    set (f := fun i h => scrape_shared engine i h tags input (VBool false)
                           None None).
    set (g := fun i => scrape engine i tags input (VBool false) None None).
    assert (Hl : Forall (local f) l).
    { apply Forall_forall. intros i _. apply scrape_shared_local. }
    assert (Hg : Forall (fun i => forall h, NoDup (objects i) ->
                   (f i h).1.1 = outcome_of (g (snapshot h i))
                   /\ (f i h).2 = calls (g (snapshot h i))
                   /\ snapshot (f i h).1.2 i = document (g (snapshot h i))) l).
    { eapply Forall_impl; [exact IH|]. intros i Hi h0 Hd.
      apply (Hi h0 (VBool false) None None Hd). }
    destruct (each_shared_distinct f g l Hl Hg Hdup h) as (Ho & Hc & Hd).
    destruct (each_shared f l h) as [[rs h'] made].
    destruct (each_of g (map (snapshot h) l)) as [[rs' docs] made'].
    simpl in *. subst rs' made' docs. done.
Qed.

(** An object that occurs twice in a list is scraped the second time as
    the first scrape left it: the description that the first pass merged
    in from [extends] is popped by the second. *)
Example shared_object_scraped_twice :
  match (scrape_shared Regex_digits (Items [Obj 0; Obj 0]) heap_shared ∅ "a1"
           (VBool false) None None).1 with
  | (Return (Reference _ resps), h) =>
      description_of <$> resps = [VNone; VStr "base d"]
      /\ h 0 = find_digits
  | _ => False
  end.
Proof. vm_compute. split; reflexivity. Qed.

(** X3. A list instruction that returns a response returns [Reference]
    with one response per element, in the order of the list: the response
    at a position is the one of scraping the element there, with the same
    tags and input, force [False] and no id or uri, in the heap that the
    elements before it have left. When the elements share no object, that
    is the response of scraping the element on its own in the heap the
    list was given in, and the list returns exactly when every element
    does. *)
Theorem shared_list_in_order engine (l : list shape) (h : heap) tags input
    force id uri (resp : Response) :
  let req := mkRequest (snapshot h (Items l)) tags input force
               (request_id_of id) (request_uri_of uri) in
  let whole := scrape_shared engine (Items l) h tags input force id uri in
  (whole.1.1 = Return resp ->
   exists resps,
     resp = Reference req resps
     /\ length resps = length l
     /\ forall pre i post, l = pre ++ i :: post ->
        exists r,
          resps !! length pre = Some r
          /\ (scrape_shared engine i
                (scrape_shared engine (Items pre) h tags input force id
                   uri).1.2
                tags input (VBool false) None None).1.1 = Return r)
  /\ (NoDup (objects (Items l)) ->
      whole.1.1 = Return resp
      <-> exists resps,
          resp = Reference req resps
          /\ Forall2 (fun i r =>
                        (scrape_shared engine i h tags input (VBool false)
                           None None).1.1 = Return r) l resps).
Proof.
  cbv zeta. cbn [scrape_shared].
  set (f := fun i h => scrape_shared engine i h tags input (VBool false)
                         None None).
  split.
  - pose proof (each_shared_length f l h) as Hlen.
    destruct (each_shared f l h) as [[[rs|e] h'] made] eqn:Hwhole;
      simpl in *; [|discriminate].
    intros H. injection H as <-. exists rs.
    split; [done|]. split; [by apply Hlen|].
    intros pre i post ->. rewrite (each_shared_app f pre (i :: post) h) in Hwhole.
    pose proof (each_shared_length f pre h) as Hpre.
    destruct (each_shared f pre h) as [[[rs1|e] h1] made1]; simpl in *;
      [|discriminate Hwhole].
    cbn [each_shared] in Hwhole. subst f. cbn beta in Hwhole.
    destruct (scrape_shared engine i h1 tags input (VBool false) None None)
      as [[[r|e] h2] made2]; simpl in *; [|discriminate Hwhole].
    exists r. split; [|done].
    match type of Hwhole with
    | context [each_shared ?g post h2] =>
        destruct (each_shared g post h2) as [[[rs2|e] h3] made3]
    end; simpl in *; [|discriminate Hwhole].
    injection Hwhole as <- _ _.
    rewrite lookup_app_r by (rewrite (Hpre rs1 eq_refl); lia).
    rewrite (Hpre rs1 eq_refl), Nat.sub_diag. done.
  - intros Hdup.
    assert (Hl : Forall (local f) l).
    { apply Forall_forall. intros i _. apply scrape_shared_local. }
    assert (Hsame : agree (concat (map objects l)) h h) by (intros a _; done).
    pose proof (fun resps =>
                  proj1 (each_shared_apart f l h Hl Hdup h resps Hsame))
      as Hiff.
    destruct (each_shared f l h) as [[[rs|e] h'] made]; simpl in *; split.
    + intros H. injection H as <-. exists rs. split; [done|]. by apply Hiff.
    + intros (resps & -> & Hall). apply Hiff in Hall. by injection Hall as <-.
    + discriminate.
    + intros (resps & _ & Hall). apply Hiff in Hall. discriminate Hall.
Qed.

(** X4. A list stops at the first element that raises. With the elements
    before it all returning, the exception is the one that element raises
    in the heap they left; the heap and the calls are then those of the
    elements up to it and the elements after it are not scraped: an object
    that occurs in none of the elements up to the failing one is
    untouched. *)
Theorem shared_list_stops_at_first_raise engine (pre post : list shape)
    (i : shape) (e : exn) (h : heap) tags input force id uri :
  let before := scrape_shared engine (Items pre) h tags input force id uri in
  let failing := scrape_shared engine i before.1.2 tags input (VBool false)
                   None None in
  let whole := scrape_shared engine (Items (pre ++ i :: post)) h tags input
                 force id uri in
  (exists r, before.1.1 = Return r) ->
  failing.1.1 = Raise e ->
  whole.1.1 = Raise e
  /\ (forall a, whole.1.2 a = failing.1.2 a)
  /\ whole.2 = before.2 ++ failing.2
  /\ (forall a, a ∉ objects (Items pre) -> a ∉ objects i -> whole.1.2 a = h a).
Proof.
  cbv zeta. cbn [scrape_shared].
  set (f := fun i h => scrape_shared engine i h tags input (VBool false)
                         None None).
  rewrite (each_shared_app f pre (i :: post) h).
  assert (Hl : Forall (local f) pre).
  { apply Forall_forall. intros j _. apply scrape_shared_local. }
  pose proof (each_shared_writes f pre Hl h) as Hw.
  destruct (each_shared f pre h) as [[[rs|e'] h1] made1]; simpl in *;
    intros [r Hr] Hfail; [|discriminate Hr].
  pose proof (proj1 (scrape_shared_local engine tags input i (VBool false)
                       None None) h1) as Hwi.
  cbn beta in Hwi. cbn [each_shared]. subst f. cbn beta.
  destruct (scrape_shared engine i h1 tags input (VBool false) None None)
    as [[o h2] made2].
  simpl in *. subst o. simpl.
  repeat split. intros a Hpre Hi. rewrite Hwi by done. by apply Hw.
Qed.

(** X20. When a list of instructions that share no object returns, every
    object of an element is left as the scrape of that element on its own
    leaves it, and every object outside the list is untouched. *)
Theorem shared_list_rewrites_elements engine (l : list shape) (h : heap)
    tags input force id uri (resp : Response) :
  NoDup (objects (Items l)) ->
  (scrape_shared engine (Items l) h tags input force id uri).1.1 = Return resp ->
  (forall i a, i ∈ l -> a ∈ objects i ->
     (scrape_shared engine (Items l) h tags input force id uri).1.2 a
     = (scrape_shared engine i h tags input (VBool false) None None).1.2 a)
  /\ (forall a, a ∉ objects (Items l) ->
      (scrape_shared engine (Items l) h tags input force id uri).1.2 a = h a).
Proof.
  intros Hdup. cbn [scrape_shared].
  set (f := fun i h => scrape_shared engine i h tags input (VBool false)
                         None None).
  assert (Hl : Forall (local f) l).
  { apply Forall_forall. intros i _. apply scrape_shared_local. }
  assert (Hsame : agree (concat (map objects l)) h h) by (intros a _; done).
  pose proof (fun resps =>
                proj2 (each_shared_apart f l h Hl Hdup h resps Hsame))
    as Hheap.
  pose proof (each_shared_writes f l Hl h) as Hw.
  destruct (each_shared f l h) as [[[rs|e] h'] made]; simpl in *;
    [|discriminate].
  intros _. split.
  - intros i a Hi Ha. by apply (Hheap rs eq_refl i Hi a Ha).
  - intros a Ha. by apply Hw.
Qed.

(** ** The further properties at concrete inputs *)

Lemma scrape_response_request_witness :
  request_of (DoneFind
                (mkRequest (VDict find_digits) ∅ "a1" (VBool true)
                   (GivenId "r1") Getcwd)
                (RStr "(\d+)") VNone [mkResult "1" None])
  = mkRequest (VDict find_digits) ∅ "a1" (VBool true) (GivenId "r1") Getcwd.
Proof.
  refine (scrape_response_request Regex_digits (VDict find_digits) ∅ "a1"
            (VBool true) (Some "r1") None _ _).
  vm_compute. reflexivity.
Defined.

Lemma shared_list_in_order_witness :
  exists resps,
    Reference (mkRequest (VList [VDict doc_extends; VDict find_digits]) ∅ "a1"
                 (VBool true) Uuid4 Getcwd)
      [DoneFind (request_for doc_extends ∅ "a1" (VBool false))
         (RStr "(\d+)") (VStr "d") [mkResult "1" None];
       DoneFind req_a1 (RStr "(\d+)") VNone [mkResult "1" None]]
    = Reference (mkRequest (snapshot heap_docs (Items [Obj 0; Obj 1])) ∅ "a1"
                   (VBool true) (request_id_of None) (request_uri_of None))
        resps
    /\ Forall2 (fun i r =>
                  (scrape_shared Regex_digits i heap_docs ∅ "a1" (VBool false)
                     None None).1.1 = Return r) [Obj 0; Obj 1] resps.
Proof.
  refine (proj1 (proj2 (shared_list_in_order Regex_digits [Obj 0; Obj 1]
                          heap_docs ∅ "a1" (VBool true) None None _) _) _).
  - exact (bool_decide_unpack (NoDup [0; 1]) I).
  - vm_compute. reflexivity.
Defined.

Lemma shared_list_stops_at_first_raise_witness :
  (scrape_shared Regex_digits (Items [Obj 0; Plain (PInt 3); Obj 1])
     heap_docs ∅ "a1" (VBool false) None None).1.1
  = Raise (InvalidInstruction (NotAnInstruction (VInt 3)))
  /\ (scrape_shared Regex_digits (Items [Obj 0; Plain (PInt 3); Obj 1])
        heap_docs ∅ "a1" (VBool false) None None).1.2 1
     = heap_docs 1.
Proof.
  pose proof (shared_list_stops_at_first_raise Regex_digits [Obj 0] [Obj 1]
                (Plain (PInt 3))
                (InvalidInstruction (NotAnInstruction (VInt 3)))
                heap_docs ∅ "a1" (VBool false) None None) as H.
  cbv zeta in H.
  assert (Hbefore : exists r,
             (scrape_shared Regex_digits (Items [Obj 0]) heap_docs ∅ "a1"
                (VBool false) None None).1.1 = Return r).
  { eexists. vm_compute. reflexivity. }
  assert (Hfail :
            (scrape_shared Regex_digits (Plain (PInt 3))
               (scrape_shared Regex_digits (Items [Obj 0]) heap_docs ∅ "a1"
                  (VBool false) None None).1.2
               ∅ "a1" (VBool false) None None).1.1
            = Raise (InvalidInstruction (NotAnInstruction (VInt 3)))).
  { reflexivity. }
  destruct (H Hbefore Hfail) as (Hout & _ & _ & Huntouched).
  split; [exact Hout|]. apply Huntouched.
  - exact (bool_decide_unpack (1 ∉ [0]) I).
  - exact (bool_decide_unpack (1 ∉ []) I).
Defined.

Lemma scrape_reference_not_supported_witness :
  outcome_of (scrape Regex_digits (VStr "http://h/instruction.json") ∅ ""
                (VBool false) None None)
  = Raise (NotImplementedError
             "Remotely constructed instructions not yet supported").
Proof.
  refine (scrape_reference_not_supported Regex_digits
            "http://h/instruction.json" ∅ "" (VBool false) None None _).
  vm_compute. reflexivity.
Defined.

Lemma scrape_extends_not_mergeable_witness :
  outcome_of (scrape Regex_digits (VDict doc_remote) ∅ "" (VBool false)
                None None)
  = Raise (NotImplementedError
             "Remotely constructed instructions not yet supported")
  /\ document (scrape Regex_digits (VDict doc_remote) ∅ "" (VBool false)
                 None None)
     = VDict (delete "extends"
                (delete "description" (delete "then" doc_remote))).
Proof.
  refine (scrape_extends_not_mergeable Regex_digits doc_remote
            (VStr "base.json") ∅ "" (VBool false) None None _ _).
  - vm_compute. reflexivity.
  - exact I.
Defined.

Lemma extends_chain_deepest_wins_witness :
  exists merged,
    extends_loop step_chain = (Return (), merged)
    /\ merged !! "find" = Some (VStr "(\d+)")
    /\ merged !! "name" = Some (VStr "digits")
    /\ merged !! "case_insensitive" = Some (VBool true).
Proof.
  destruct (extends_chain_deepest_wins step_chain chain_mid find_digits
              eq_refl eq_refl eq_refl)
    as (merged & Hloop & _ & Hbase & Hmid & Hown).
  exists merged. split; [exact Hloop|]. split; [|split].
  - apply Hbase. vm_compute. reflexivity.
  - apply Hmid; [vm_compute; reflexivity | discriminate
                | vm_compute; reflexivity].
  - rewrite Hown; [vm_compute; reflexivity | vm_compute; reflexivity
                  | vm_compute; reflexivity | discriminate].
Defined.

Lemma load_step_raises_type_error_witness :
  outcome_of (_scrape_dict Regex_digits req_forced load_forced)
  = Raise (TypeError "_scrape_load() takes exactly 6 arguments (5 given)").
Proof.
  refine (load_step_raises_type_error Regex_digits req_forced load_forced
            load_forced _ _ _).
  - vm_compute. reflexivity.
  - vm_compute. reflexivity.
  - vm_compute. eexists. reflexivity.
Defined.

Lemma scrape_never_answers_load_witness :
  no_load (Reference
             (mkRequest (VList [VDict find_digits]) ∅ "a1" (VBool true)
                Uuid4 Getcwd)
             [DoneFind req_a1 (RStr "(\d+)") VNone [mkResult "1" None]])
  = true.
Proof.
  refine (scrape_never_answers_load Regex_digits (VList [VDict find_digits])
            ∅ "a1" (VBool true) None None _ _).
  vm_compute. reflexivity.
Defined.

Lemma _scrape_load_validates_first_witness :
  _scrape_load (session_answers 200 "") repr_opaque req_a1
    {[ "load" := VStr "http://h/" ]} (VBool true) VNone (VList [])
  = (Raise (InvalidInstruction MissingURL), [])
  /\ _scrape_load (session_answers 200 "") repr_opaque req_a1
       {[ "url" := VStr "http://h/"; "method" := VStr "put" ]}
       (VBool true) VNone (VList [])
     = (Raise (InvalidInstruction (IllegalHTTPMethod (VStr "put"))), []).
Proof.
  split.
  - refine (proj1 (_scrape_load_validates_first (session_answers 200 "")
                     repr_opaque req_a1 {[ "load" := VStr "http://h/" ]}
                     (VBool true) VNone (VList [])) _).
    vm_compute. reflexivity.
  - refine (proj2 (_scrape_load_validates_first (session_answers 200 "")
                     repr_opaque req_a1
                     {[ "url" := VStr "http://h/"; "method" := VStr "put" ]}
                     (VBool true) VNone (VList [])) _ _).
    + vm_compute. eexists. reflexivity.
    + vm_compute. reflexivity.
Defined.

Lemma _scrape_load_pauses_on_missing_tags_witness :
  _scrape_load (session_answers 200 "") repr_opaque
    (request_for load_paged ∅ "" (VBool true))
    (<["force":=VBool true]> load_paged) (VBool true) VNone (VList [])
  = (Return (MissingTags (request_for load_paged ∅ "" (VBool true))
               ["page"; "sid"]), []).
Proof.
  eapply eq_trans.
  - eapply (_scrape_load_pauses_on_missing_tags (session_answers 200 "")
              repr_opaque (request_for load_paged ∅ "" (VBool true))
              (<["force":=VBool true]> load_paged) (VBool true) VNone
              (VList [])).
    + vm_compute. eexists. reflexivity.
    + vm_compute. reflexivity.
    + vm_compute. reflexivity.
    + vm_compute. reflexivity.
    + vm_compute. reflexivity.
    + vm_compute. reflexivity.
    + vm_compute. reflexivity.
    + vm_compute. discriminate.
  - vm_compute. reflexivity.
Defined.

Lemma _scrape_load_failed_only_on_status_witness :
  exists c resp,
    [call_plain] = [c] /\ session_answers 404 "" c = Return resp
    /\ status_code resp <> 200%Z
    /\ "Status code 404 from http://h/"
       = "Status code " +:+ pretty (status_code resp)
         +:+ " from " +:+ str_resolved repr_opaque (call_url c).
Proof.
  refine (proj2 (_scrape_load_failed_only_on_status (session_answers 404 "")
                   repr_opaque req_forced load_forced (VBool true) VNone
                   (VList []) req_forced "Status code 404 from http://h/"
                   [call_plain] _)).
  vm_compute. reflexivity.
Defined.

Lemma _scrape_load_done_witness :
  exists c resp,
    [call_plain] = [c] /\ session_answers 200 "<html>" c = Return resp
    /\ status_code resp = 200%Z
    /\ mkResult "<html>" None = mkResult (text resp) None.
Proof.
  refine (proj1 (proj2 (proj2
            (_scrape_load_done (session_answers 200 "<html>") repr_opaque
               req_forced load_forced (VBool true) VNone (VList [])
               req_forced (RStr "http://h/") VNone (mkResult "<html>" None)
               [call_plain] _)))).
  vm_compute. reflexivity.
Defined.

Lemma _scrape_load_wait_witness :
  eq_True (get load_plain "force" VNone) = false.
Proof.
  refine (proj1 (proj2 (proj2 (proj2
            (_scrape_load_wait (session_answers 200 "") repr_opaque
               (request_for load_plain ∅ "" (VBool true)) load_plain
               (VBool true) VNone (VList [])
               (request_for load_plain ∅ "" (VBool true))
               (RStr "http://h/") VNone [] _))))).
  vm_compute. reflexivity.
Defined.

Lemma _scrape_find_failed_witness :
  exists findR replace,
    read (get find_digits "find" VNone) ∅ = Return findR
    /\ read (get find_digits "replace" (VStr "$0")) ∅ = Return replace
    /\ Regex_digits findR (get find_digits "case_insensitive" (VBool false))
         (get find_digits "multiline" (VBool false))
         (get find_digits "dot_matches_all" (VBool true)) replace "abc"
       = Return [].
Proof.
  refine (proj2 (proj2
            (_scrape_find_failed Regex_digits
               (request_for find_digits ∅ "abc" (VBool false)) find_digits
               VNone (VList [])
               (request_for find_digits ∅ "abc" (VBool false))
               "No matches" _))).
  vm_compute. reflexivity.
Defined.

Lemma _scrape_find_done_witness :
  exists findR replace nameR substitutions,
    read (get find_digits "find" VNone) ∅ = Return findR
    /\ read (get find_digits "replace" (VStr "$0")) ∅ = Return replace
    /\ read (get find_digits "name" VNone) ∅ = Return nameR
    /\ Regex_digits findR (get find_digits "case_insensitive" (VBool false))
         (get find_digits "multiline" (VBool false))
         (get find_digits "dot_matches_all" (VBool true)) replace
         "a1 b22 c333"
       = Return substitutions
    /\ substitutions <> []
    /\ [mkResult "1" None; mkResult "22" None; mkResult "333" None]
       = (fun s => mkResult s None) <$> substitutions
    /\ RStr "(\d+)" = if truthy nameR then nameR else findR.
Proof.
  refine (proj2 (proj2
            (_scrape_find_done Regex_digits
               (request_for find_digits ∅ "a1 b22 c333" (VBool false))
               find_digits VNone (VList [])
               (request_for find_digits ∅ "a1 b22 c333" (VBool false))
               (RStr "(\d+)") VNone
               [mkResult "1" None; mkResult "22" None; mkResult "333" None]
               _))).
  vm_compute. reflexivity.
Defined.

Lemma _scrape_find_pauses_before_engine_witness :
  _scrape_find (fun _ _ _ _ _ _ => Raise (OtherException "never consulted"))
    (request_for {[ "find" := VStr "{{pattern}}" ]} ∅ "a1" (VBool false))
    {[ "find" := VStr "{{pattern}}" ]} VNone (VList [])
  = Return (MissingTags
              (request_for {[ "find" := VStr "{{pattern}}" ]} ∅ "a1"
                 (VBool false))
              ["pattern"]).
Proof.
  refine (proj2 (proj2
            (_scrape_find_pauses_before_engine Regex_digits
               (request_for {[ "find" := VStr "{{pattern}}" ]} ∅ "a1"
                  (VBool false))
               {[ "find" := VStr "{{pattern}}" ]} VNone (VList [])
               (request_for {[ "find" := VStr "{{pattern}}" ]} ∅ "a1"
                  (VBool false))
               ["pattern"] _)) _).
  vm_compute. reflexivity.
Defined.

Lemma _scrape_dict_description_own_witness :
  VStr "d" = get doc_extends "description" VNone.
Proof.
  refine (_scrape_dict_description_own Regex_digits
            (request_for doc_extends ∅ "a1" (VBool false)) doc_extends
            (request_for doc_extends ∅ "a1" (VBool false))
            (RStr "(\d+)") (VStr "d") [mkResult "1" None] _).
  vm_compute. reflexivity.
Defined.

Lemma shared_list_rewrites_elements_witness :
  (scrape_shared Regex_digits (Items [Obj 0; Obj 1]) heap_docs ∅ "a1"
     (VBool false) None None).1.2 0
  = (scrape_shared Regex_digits (Obj 0) heap_docs ∅ "a1" (VBool false)
       None None).1.2 0.
Proof.
  refine (proj1 (shared_list_rewrites_elements Regex_digits [Obj 0; Obj 1]
                   heap_docs ∅ "a1" (VBool false) None None
                   (Reference
                      (mkRequest (VList [VDict doc_extends; VDict find_digits])
                         ∅ "a1" (VBool false) Uuid4 Getcwd)
                      [DoneFind (request_for doc_extends ∅ "a1" (VBool false))
                         (RStr "(\d+)") (VStr "d") [mkResult "1" None];
                       DoneFind req_a1 (RStr "(\d+)") VNone
                         [mkResult "1" None]])
                   _ _) (Obj 0) 0 _ _).
  - exact (bool_decide_unpack (NoDup [0; 1]) I).
  - vm_compute. reflexivity.
  - constructor.
  - exact (bool_decide_unpack (0 ∈ [0]) I).
Defined.
